(** * CreditMaster Pro: the Python ML service ([app/python_ml_service.py])

    A shallow embedding of [CreditMLService]: feature validation, the
    prediction pipeline, the category-to-score conversion, batch
    prediction, model loading and model introspection.

    Python [float]s are IEEE-754 binary64 values; they are modelled by
    Rocq's primitive [float]s, which are the same format with the same
    rounding (round to nearest, ties to even), so NaN, infinities and
    signed zeros behave as they do in the program.  Python [int]s are
    unbounded and are modelled by [Z].

    Side effects are explicit: a [World] carries the files the loader can
    see, the entropy consumed by [np.random.randint], and the lines
    printed on standard output.  A computation either returns a value or
    raises a Python exception, and the world it leaves behind is kept in
    both cases (a [print] executed before a [raise] stays printed).

    A feature vector is a [List[float]], as annotated; an [int] item of
    the test profiles stands for the float of the same value, with which
    it compares alike.  The command-line shell [main] is modelled in
    [Shell], over the builtins it calls ([str.lower], [float] on a
    string, [json.dumps] and the percent format). *)

From Stdlib Require Import ZArith Lia List String Bool Floats DecimalString.
Import ListNotations.

Set Warnings "-inexact-float,-register-all".

#[local] Open Scope string_scope.
#[local] Open Scope list_scope.
#[local] Open Scope Z_scope.

(* ================================================================= *)
(** ** Python values *)

(** An exception: its class name and [str(e)]. *)
Inductive exn : Type :=
| Exn (cls : string) (msg : string).

Definition exn_class (e : exn) : string := let 'Exn c _ := e in c.

(** [str(e)] *)
Definition str_exn (e : exn) : string := let 'Exn _ m := e in m.

Definition ValueError (msg : string) : exn := Exn "ValueError" msg.
Definition RuntimeError (msg : string) : exn := Exn "RuntimeError" msg.
Definition OverflowError (msg : string) : exn := Exn "OverflowError" msg.
Definition FileNotFoundError (msg : string) : exn := Exn "FileNotFoundError" msg.
Definition IndexError (msg : string) : exn := Exn "IndexError" msg.

(** [repr] of an [int]. *)
Definition repr_int (z : Z) : string := NilZero.string_of_int (Z.to_int z).

(** [KeyError(k)] for an integer key; [str] of a [KeyError] is the [repr]
    of the key. *)
Definition KeyError (k : Z) : exn := Exn "KeyError" (repr_int k).

(** A dictionary key: the program uses [int] and [str] keys. *)
Inductive key : Type :=
| KInt (z : Z)
| KStr (s : string).

(** The values that appear in the dictionaries the service returns. *)
Inductive pyval : Type :=
| VNone
| VBool (b : bool)
| VInt (z : Z)
| VFloat (f : float)
| VStr (s : string)
| VList (l : list pyval)
| VDict (d : list (key * pyval)).

(** A [dict] keeps insertion order; every dictionary built by the
    service has pairwise distinct keys, so an association list in
    insertion order is a faithful picture of it. *)
Definition pydict : Type := list (key * pyval).

Definition key_eqb (a b : key) : bool :=
  match a, b with
  | KInt x, KInt y => Z.eqb x y
  | KStr x, KStr y => String.eqb x y
  | _, _ => false
  end.

(** [d.get(k)] *)
Fixpoint dict_get (k : key) (d : pydict) : option pyval :=
  match d with
  | [] => None
  | (k', v) :: d' => if key_eqb k k' then Some v else dict_get k d'
  end.

(** [d[k] = v] *)
Fixpoint dict_set (k : key) (v : pyval) (d : pydict) : pydict :=
  match d with
  | [] => [(k, v)]
  | (k', v') :: d' =>
      if key_eqb k k' then (k', v) :: d' else (k', v') :: dict_set k v d'
  end.

(** The value of an optional object: [None] when absent. *)
Definition opt_val {A : Type} (f : A -> pyval) (o : option A) : pyval :=
  match o with
  | None => VNone
  | Some a => f a
  end.

(* ================================================================= *)
(** ** Operations on floats *)

Module PyFloat.

#[local] Open Scope float_scope.

(** [int(x)]: truncation toward zero; NaN and the infinities raise. *)
Definition int_of_float (x : float) : exn + Z :=
  match Prim2SF x with
  | S754_nan => inl (ValueError "cannot convert float NaN to integer")
  | S754_infinity _ =>
      inl (OverflowError "cannot convert float infinity to integer")
  | S754_zero _ => inr 0%Z
  | S754_finite s m e => inr (cond_Zopp s (Z.shiftl (Zpos m) e))
  end.

(** [math.floor(x)]: the mathematical floor, for comparison with the
    truncation the program uses. *)
Definition floor_of_float (x : float) : exn + Z :=
  match Prim2SF x with
  | S754_nan => inl (ValueError "cannot convert float NaN to integer")
  | S754_infinity _ =>
      inl (OverflowError "cannot convert float infinity to integer")
  | S754_zero _ => inr 0%Z
  | S754_finite s m e => inr (Z.shiftl (cond_Zopp s (Zpos m)) e)
  end.

Definition is_nan (x : float) : bool := negb (x =? x).

(** The builtin [max] on a sequence: it keeps the first item and replaces
    it whenever a later item compares greater. *)
Definition py_max (l : list float) : exn + float :=
  match l with
  | [] => inl (ValueError "max() arg is an empty sequence")
  | x :: xs =>
      inr (fold_left (fun cur item => if cur <? item then item else cur) xs x)
  end.

(** [x in [0, 1, 2]] for a float [x]: membership is by [==]. *)
Definition in_0_1_2 (x : float) : bool :=
  (x =? 0) || (x =? 1) || (x =? 2).

End PyFloat.

(* ================================================================= *)
(** ** The classifier *)

(** The object [joblib.load] returns is opaque to the service, which
    only calls [predict], probes optional capabilities with [hasattr],
    and reads its type name.  An optional capability is an [option]:
    [None] when [hasattr] answers [False].  A call can raise. *)
Record Model : Type := {
  type_name : string;                       (* type(model).__name__ *)
  predict : list float -> exn + Z;          (* model.predict([x])[0] *)
  predict_proba : option (list float -> exn + list float);
                                            (* model.predict_proba([x])[0] *)
  feature_importances_ : option (list float);
  n_estimators : option pyval;
  max_depth : option pyval;
  random_state : option pyval
}.

(* ================================================================= *)
(** ** The world and the monad of effects *)

(** A piece of a printed line: literal text or an interpolated value
    (an f-string is a sequence of pieces). *)
Inductive piece : Type :=
| Lit (s : string)
| Val (v : pyval).

(** What lies at a path: nothing ([None]), or a file on which
    [joblib.load] either raises or returns an object; the object may be
    Python's [None]. *)
Definition file_state : Type := option (exn + option Model).

Record World : Type := {
  files : string -> file_state;
  tape : nat -> Z;              (* the raw draws of the random generator *)
  cursor : nat;                 (* how many draws were consumed *)
  stdout : list (list piece)    (* printed lines, oldest first *)
}.

Definition M (A : Type) : Type := World -> (exn + A) * World.

Definition ret {A : Type} (a : A) : M A := fun w => (inr a, w).

Definition raise {A : Type} (e : exn) : M A := fun w => (inl e, w).

Definition bind {A B : Type} (c : M A) (k : A -> M B) : M B :=
  fun w =>
    match c w with
    | (inr a, w') => k a w'
    | (inl e, w') => (inl e, w')
    end.

(** [try: c except Exception as e: h e] *)
Definition try_except {A : Type} (c : M A) (h : exn -> M A) : M A :=
  fun w =>
    match c w with
    | (inr a, w') => (inr a, w')
    | (inl e, w') => h e w'
    end.

(** A pure step that can raise. *)
Definition lift {A : Type} (r : exn + A) : M A :=
  match r with
  | inl e => raise e
  | inr a => ret a
  end.

Declare Scope py_scope.
Delimit Scope py_scope with py.
Notation "x <- c ;; k" := (bind c (fun x => k))
  (at level 100, c at next level, right associativity) : py_scope.
Notation "c ;;; k" := (bind c (fun _ => k))
  (at level 100, right associativity) : py_scope.
#[local] Open Scope py_scope.

(** [print(line)] *)
Definition print (line : list piece) : M unit :=
  fun w =>
    (inr tt,
     {| files := files w; tape := tape w; cursor := cursor w;
        stdout := stdout w ++ [line] |}).

(** [Path(p).exists()] *)
Definition path_exists (p : string) : M bool :=
  fun w => (inr (match files w p with None => false | Some _ => true end), w).

(** [joblib.load(p)] on a path that exists; on a path that does not,
    the library raises [FileNotFoundError] itself. *)
Definition joblib_load (p : string) : M (option Model) :=
  fun w =>
    match files w p with
    | Some r => (r, w)
    | None => (inl (FileNotFoundError "No such file or directory"), w)
    end.

(** [np.random.randint(low, high)], from NumPy's documentation: an
    integer of the half-open interval from [low] to [high], of the
    default 64-bit integer type.  The bounds are checked before anything
    is drawn: [low] below the type's minimum, [high - 1] above its
    maximum, or an empty interval raise [ValueError].  The integer
    returned is decided by the next raw draw on the tape. *)
Definition int64_min : Z := - 2 ^ 63.
Definition int64_max : Z := 2 ^ 63 - 1.

Definition randint (low high : Z) : M Z :=
  if low <? int64_min then
    raise (ValueError "low is out of bounds for int64")
  else if high - 1 >? int64_max then
    raise (ValueError "high is out of bounds for int64")
  else if low >? high - 1 then
    raise (ValueError "low >= high")
  else
    fun w =>
      (inr (low + tape w (cursor w) mod (high - low)),
       {| files := files w; tape := tape w; cursor := S (cursor w);
          stdout := stdout w |}).

(* ================================================================= *)
(** ** The service *)

(** [self.feature_names] and [self.credit_categories] are set by
    [__init__] to these literals and never assigned again. *)
Definition feature_names : list string :=
  [ "Outstanding_Debt";
    "Credit_Mix";
    "Credit_History_Age";
    "Monthly_Balance";
    "Payment_Behaviour";
    "Annual_Income";
    "Num_of_Delayed_Payment" ].

Definition credit_categories : list (Z * string) :=
  [ (0, "Good"); (1, "Poor"); (2, "Standard") ].

(** The remaining attributes of a [CreditMLService] object. *)
Record CreditMLService : Type := {
  model_path : string;
  model : option Model          (* [None] is Python's None *)
}.

(** Lookup in a dictionary with integer keys: [d.get(k)]. *)
Fixpoint int_dict_get {A : Type} (k : Z) (d : list (Z * A)) : option A :=
  match d with
  | [] => None
  | (k', v) :: d' => if Z.eqb k k' then Some v else int_dict_get k d'
  end.

(** [self.credit_categories[k]]: raises [KeyError] on a missing key. *)
Definition credit_categories_item (k : Z) : exn + string :=
  match int_dict_get k credit_categories with
  | Some l => inr l
  | None => inl (KeyError k)
  end.

(** [self.feature_names[i]] for [i] from [enumerate]: raises
    [IndexError] past the end. *)
Definition feature_names_item (i : nat) : exn + string :=
  match nth_error feature_names i with
  | Some n => inr n
  | None => inl (IndexError "list index out of range")
  end.

(** [type(self.model).__name__] *)
Definition type_name_of (o : option Model) : string :=
  match o with
  | None => "NoneType"
  | Some m => type_name m
  end.

(** *** [load_model] *)

(** The body of the [try] block. *)
Definition load_model_body (self : CreditMLService) : M CreditMLService :=
  ex <- path_exists (model_path self) ;;
  if ex then
    print [Lit "Loading model from "; Val (VStr (model_path self))] ;;;
    loaded <- joblib_load (model_path self) ;;
    print [Lit "Model loaded successfully: "; Val (VStr (type_name_of loaded))] ;;;
    (match loaded with
     | Some m =>
         (match n_estimators m with
          | Some n => print [Lit "Model details: "; Val n; Lit " estimators"]
          | None => ret tt
          end) ;;;
         (match feature_importances_ m with
          | Some _ => print [Lit "Feature importances available"]
          | None => ret tt
          end)
     | None => ret tt
     end) ;;;
    ret {| model_path := model_path self; model := loaded |}
  else
    raise (FileNotFoundError
             ("Model file not found: " ++ model_path self)%string).

(** [load_model]: the handler prints and re-raises ([raise] with no
    argument raises the exception being handled). *)
Definition load_model (self : CreditMLService) : M CreditMLService :=
  try_except (load_model_body self)
    (fun e =>
       print [Lit "Error loading model: "; Val (VStr (str_exn e))] ;;;
       raise e).

(** [CreditMLService(model_path)]: [__init__] sets the attributes and
    calls [load_model]; an exception leaves no object. *)
Definition init (path : string) : M CreditMLService :=
  load_model {| model_path := path; model := None |}.

Definition default_model_path : string := "models/credit_classifier.joblib".

(** *** [validate_features] *)

Definition validate_features (features : list float) : M bool :=
  if negb (Nat.eqb (List.length features) (List.length feature_names)) then
    print [Lit "Expected "; Val (VInt (Z.of_nat (List.length feature_names)));
           Lit " features, got "; Val (VInt (Z.of_nat (List.length features)))] ;;;
    ret false
  else
    match features with
    | [outstanding_debt; credit_mix; credit_history_age; monthly_balance;
       payment_behaviour; annual_income; delayed_payments] =>
        if (outstanding_debt <? 0)%float then
          print [Lit "Outstanding debt cannot be negative"] ;;; ret false
        else if negb (PyFloat.in_0_1_2 credit_mix) then
          print [Lit "Credit mix must be 0, 1, or 2"] ;;; ret false
        else if (credit_history_age <? 0)%float then
          print [Lit "Credit history age cannot be negative"] ;;; ret false
        else if (annual_income <? 0)%float then
          print [Lit "Annual income cannot be negative"] ;;; ret false
        else if (delayed_payments <? 0)%float then
          print [Lit "Delayed payments cannot be negative"] ;;; ret false
        else ret true
    | _ =>
        (* the unpacking of a list that has not seven items raises; the
           arity check above has returned before it can happen *)
        raise (ValueError "wrong number of values to unpack (expected 7)")
    end.

(** *** [convert_category_to_score] *)

Definition base_scores : list (Z * Z) :=
  [ (0, 750); (1, 580); (2, 650) ].

(** [base_scores.get(category, 650)] *)
Definition base_score (category : Z) : Z :=
  match int_dict_get category base_scores with
  | Some b => b
  | None => 650
  end.

(** [int((1 - confidence) * 50)] *)
Definition variance_of (confidence : float) : exn + Z :=
  PyFloat.int_of_float ((1 - confidence) * 50)%float.

(** [max(300, min(850, s))] *)
Definition clamp_score (s : Z) : Z := Z.max 300 (Z.min 850 s).

Definition convert_category_to_score (category : Z) (confidence : float) : M Z :=
  let base_score := base_score category in
  variance <- lift (variance_of confidence) ;;
  adjustment <- randint (- variance) (variance + 1) ;;
  let final_score := base_score + adjustment in
  ret (clamp_score final_score).

(** *** [predict_credit_score] *)

(** [{self.credit_categories[i]: float(prob) for i, prob in enumerate(proba)}],
    the items from index [i] on. *)
Fixpoint label_probabilities_from (i : Z) (proba : list float) : exn + pydict :=
  match proba with
  | [] => inr []
  | prob :: rest =>
      match credit_categories_item i with
      | inl e => inl e
      | inr label =>
          match label_probabilities_from (i + 1) rest with
          | inl e => inl e
          | inr d => inr ((KStr label, VFloat prob) :: d)
          end
      end
  end.

Definition label_probabilities (proba : list float) : exn + pydict :=
  label_probabilities_from 0 proba.

(** [{self.feature_names[i]: float(imp) for i, imp in enumerate(importance)}] *)
Fixpoint name_importances_from (i : nat) (importance : list float) : exn + pydict :=
  match importance with
  | [] => inr []
  | imp :: rest =>
      match feature_names_item i with
      | inl e => inl e
      | inr name =>
          match name_importances_from (S i) rest with
          | inl e => inl e
          | inr d => inr ((KStr name, VFloat imp) :: d)
          end
      end
  end.

Definition name_importances (importance : list float) : exn + pydict :=
  name_importances_from 0 importance.

Definition default_confidence : float := 0.85%float.

(** The probability step.  The two locals start as [None] and [0.85];
    the [try] block assigns [probabilities] before it computes the
    maximum, so an exception raised by [max] leaves [probabilities]
    assigned and [confidence] at its default. *)
Definition probability_step (m : Model) (features : list float)
  : M (option pydict * float) :=
  match predict_proba m with
  | None => ret (None, default_confidence)
  | Some proba_of =>
      let could_not e :=
        print [Lit "Could not get probabilities: "; Val (VStr (str_exn e))] in
      match proba_of features with
      | inl e => could_not e ;;; ret (None, default_confidence)
      | inr proba =>
          match label_probabilities proba with
          | inl e => could_not e ;;; ret (None, default_confidence)
          | inr probabilities =>
              match PyFloat.py_max proba with
              | inl e => could_not e ;;; ret (Some probabilities, default_confidence)
              | inr confidence => ret (Some probabilities, confidence)
              end
          end
      end
  end.

(** The feature-importance step. *)
Definition importance_step (m : Model) : M (option pydict) :=
  match feature_importances_ m with
  | None => ret None
  | Some importance =>
      match name_importances importance with
      | inl e =>
          print [Lit "Could not get feature importance: "; Val (VStr (str_exn e))] ;;;
          ret None
      | inr d => ret (Some d)
      end
  end.

(** [dict(zip(self.feature_names, features))] *)
Definition features_used (features : list float) : pydict :=
  map (fun nf => (KStr (fst nf), VFloat (snd nf))) (combine feature_names features).

(** The body of the [try] block of [predict_credit_score]. *)
Definition predict_body (self : CreditMLService) (features : list float) : M pydict :=
  valid <- validate_features features ;;
  if negb valid then raise (ValueError "Invalid features provided")
  else
    match model self with
    | None => raise (RuntimeError "Model not loaded")
    | Some m =>
        prediction <- lift (predict m features) ;;
        pc <- probability_step m features ;;
        let '(probabilities, confidence) := pc in
        feature_importance <- importance_step m ;;
        credit_score <- convert_category_to_score prediction confidence ;;
        prediction_label <- lift (credit_categories_item prediction) ;;
        ret [ (KStr "success", VBool true);
              (KStr "prediction_category", VInt prediction);
              (KStr "prediction_label", VStr prediction_label);
              (KStr "credit_score_estimate", VInt credit_score);
              (KStr "confidence", VFloat confidence);
              (KStr "probabilities", opt_val VDict probabilities);
              (KStr "feature_importance", opt_val VDict feature_importance);
              (KStr "model_type", VStr (type_name m));
              (KStr "features_used", VDict (features_used features)) ]
    end.

(** The dictionary the [except] clause returns. *)
Definition failure_result (e : exn) : pydict :=
  [ (KStr "success", VBool false);
    (KStr "error", VStr (str_exn e));
    (KStr "prediction_category", VNone);
    (KStr "prediction_label", VNone);
    (KStr "credit_score_estimate", VNone);
    (KStr "confidence", VNone) ].

Definition predict_credit_score (self : CreditMLService) (features : list float)
  : M pydict :=
  try_except (predict_body self features) (fun e => ret (failure_result e)).

(** *** [batch_predict] *)

Fixpoint batch_predict_from (self : CreditMLService) (results : list pydict)
    (features_list : list (list float)) : M (list pydict) :=
  match features_list with
  | [] => ret results
  | features :: rest =>
      result <- predict_credit_score self features ;;
      batch_predict_from self (results ++ [result]) rest
  end.

Definition batch_predict (self : CreditMLService)
    (features_list : list (list float)) : M (list pydict) :=
  batch_predict_from self [] features_list.

(** *** [get_model_info] *)

(** [if hasattr(self.model, name): info[name] = self.model.name] *)
Definition add_if_exposed (name : string) (attr : option pyval) (info : pydict)
  : pydict :=
  match attr with
  | Some v => dict_set (KStr name) v info
  | None => info
  end.

Definition get_model_info (self : CreditMLService) : pydict :=
  match model self with
  | None => [ (KStr "error", VStr "Model not loaded") ]
  | Some m =>
      let info :=
        [ (KStr "model_type", VStr (type_name m));
          (KStr "feature_names", VList (map VStr feature_names));
          (KStr "credit_categories",
            VDict (map (fun kl => (KInt (fst kl), VStr (snd kl))) credit_categories));
          (KStr "model_loaded", VBool true) ] in
      let info := add_if_exposed "n_estimators" (n_estimators m) info in
      let info := add_if_exposed "max_depth" (max_depth m) info in
      let info := add_if_exposed "random_state" (random_state m) info in
      info
  end.

(* ================================================================= *)
(** ** The validation rules as the specification words them *)

Module Spec.

#[local] Open Scope float_scope.

(** "x >= 0" *)
Definition nonneg (x : float) : bool := 0 <=? x.

(** Section 4.2 read literally: arity seven, then the five range
    rules, Monthly_Balance and Payment_Behaviour left alone. *)
Definition valid_as_claimed (features : list float) : bool :=
  match features with
  | [debt; mix; age; _; _; income; delayed] =>
      nonneg debt && PyFloat.in_0_1_2 mix && nonneg age && nonneg income
      && nonneg delayed
  | _ => false
  end.

(** "x is not negative": at least zero, or not a number at all. *)
Definition not_negative (x : float) : bool := nonneg x || PyFloat.is_nan x.

Definition valid (features : list float) : bool :=
  match features with
  | [debt; mix; age; _; _; income; delayed] =>
      not_negative debt && PyFloat.in_0_1_2 mix && not_negative age
      && not_negative income && not_negative delayed
  | _ => false
  end.

(** The rules in the order of section 4.2, each with the test that
    tells it is violated and the diagnostic that reports it. *)
Definition rules (features : list float) : list (bool * list piece) :=
  (negb (Nat.eqb (List.length features) 7),
   [Lit "Expected "; Val (VInt 7); Lit " features, got ";
    Val (VInt (Z.of_nat (List.length features)))])
  :: match features with
     | [debt; mix; age; _; _; income; delayed] =>
         [ (negb (not_negative debt), [Lit "Outstanding debt cannot be negative"]);
           (negb (PyFloat.in_0_1_2 mix), [Lit "Credit mix must be 0, 1, or 2"]);
           (negb (not_negative age), [Lit "Credit history age cannot be negative"]);
           (negb (not_negative income), [Lit "Annual income cannot be negative"]);
           (negb (not_negative delayed), [Lit "Delayed payments cannot be negative"]) ]
     | _ => []
     end.

(** The diagnostic of the first violated rule, if any rule is. *)
Definition first_violation (features : list float) : option (list piece) :=
  option_map snd (find fst (rules features)).

End Spec.

(** The world after some lines were printed. *)
Definition printed (lines : list (list piece)) (w : World) : World :=
  {| files := files w; tape := tape w; cursor := cursor w;
     stdout := stdout w ++ lines |}.

(** The world after one draw was consumed. *)
Definition drawn (w : World) : World :=
  {| files := files w; tape := tape w; cursor := S (cursor w);
     stdout := stdout w |}.

(** Two worlds with the same random generator, in the same state. *)
Definition same_rng (w1 w2 : World) : Prop :=
  tape w1 = tape w2 /\ cursor w1 = cursor w2.

(** A computation whose outcome depends on the world only through the
    random generator, and which treats the generator alike in worlds
    that agree on it. *)
Definition rng_only {A : Type} (c : M A) : Prop :=
  forall w1 w2, same_rng w1 w2 ->
    fst (c w1) = fst (c w2) /\ same_rng (snd (c w1)) (snd (c w2)).

(** The world with another tape. *)
Definition with_tape (t : nat -> Z) (w : World) : World :=
  {| files := files w; tape := t; cursor := cursor w; stdout := stdout w |}.

(** The dictionary of a successful prediction. *)
Definition success_result (m : Model) (features : list float) (prediction : Z)
    (label : string) (score : Z) (confidence : float)
    (probabilities feature_importance : option pydict) : pydict :=
  [ (KStr "success", VBool true);
    (KStr "prediction_category", VInt prediction);
    (KStr "prediction_label", VStr label);
    (KStr "credit_score_estimate", VInt score);
    (KStr "confidence", VFloat confidence);
    (KStr "probabilities", opt_val VDict probabilities);
    (KStr "feature_importance", opt_val VDict feature_importance);
    (KStr "model_type", VStr (type_name m));
    (KStr "features_used", VDict (features_used features)) ].

(** What a run of [predict_credit_score] that ends in a success went
    through. *)
Definition success_run (self : CreditMLService) (features : list float)
    (w : World) (r : pydict) (w' : World) : Prop :=
  exists m prediction label score confidence probabilities fi w2 w3,
    Spec.valid features = true /\
    model self = Some m /\
    predict m features = inr prediction /\
    probability_step m features w = (inr (probabilities, confidence), w2) /\
    importance_step m w2 = (inr fi, w3) /\
    convert_category_to_score prediction confidence w3 = (inr score, w') /\
    credit_categories_item prediction = inr label /\
    r = success_result m features prediction label score confidence probabilities fi.

(** The runs of [batch_predict]: the results of the items, in order,
    each the result of [predict_credit_score] in the world its
    predecessors left. *)
Inductive batch_run (self : CreditMLService)
  : World -> list (list float) -> list pydict -> World -> Prop :=
| batch_run_nil (w : World) : batch_run self w [] [] w
| batch_run_cons (w w1 w2 : World) (features : list float)
    (rest : list (list float)) (result : pydict) (results : list pydict) :
    predict_credit_score self features w = (inr result, w1) ->
    batch_run self w1 rest results w2 ->
    batch_run self w (features :: rest) (result :: results) w2.

(** The world [batch_predict] has reached when it comes to item [i]. *)
Definition world_before (self : CreditMLService) (features_list : list (list float))
    (i : nat) (w : World) : World :=
  snd (batch_predict self (firstn i features_list) w).

(** The keys [get_model_info] can set on a loaded model. *)
Definition info_keys : list string :=
  [ "model_type"; "feature_names"; "credit_categories"; "model_loaded";
    "n_estimators"; "max_depth"; "random_state" ].

(* ================================================================= *)
(** ** Sample objects *)

Module Sample.

#[local] Open Scope float_scope.

(** The first profile of the [test] command. *)
Definition features : list float := [5000; 1; 36; 2500; 85; 60000; 2].

(** The same profile with a debt that is not a number. *)
Definition nan_debt : list float := [nan; 1; 36; 2500; 85; 60000; 2].

(** The same profile with a negative income. *)
Definition negative_income : list float := [5000; 1; 36; 2500; 85; -1; 2].

Definition five_features : list float := [5000; 1; 36; 2500; 85].

(** A list that violates every range rule. *)
Definition all_wrong : list float := [-1; 5; -1; 0; 0; -1; -1].

(** A forest with every optional capability. *)
Definition forest : Model :=
  {| type_name := "RandomForestClassifier";
     predict := fun _ => inr 0%Z;
     predict_proba := Some (fun _ => inr [0.7; 0.1; 0.2]);
     feature_importances_ := Some [0.3; 0.1; 0.2; 0.1; 0.1; 0.1; 0.1];
     n_estimators := Some (VInt 100);
     max_depth := Some VNone;
     random_state := Some (VInt 42) |}.

(** A classifier with no optional capability. *)
Definition plain : Model :=
  {| type_name := "LinearSVC";
     predict := fun _ => inr 1%Z;
     predict_proba := None;
     feature_importances_ := None;
     n_estimators := None;
     max_depth := None;
     random_state := None |}.

(** A classifier trained on four classes. *)
Definition four_classes : Model :=
  {| type_name := "LinearSVC";
     predict := fun _ => inr 3%Z;
     predict_proba := None;
     feature_importances_ := None;
     n_estimators := None;
     max_depth := None;
     random_state := None |}.

Definition unpickling_error : exn := Exn "UnpicklingError" "invalid load key".

Definition missing_part : exn :=
  FileNotFoundError "No such file or directory: models/split.joblib_01.npy".

Definition world : World :=
  {| files := fun p =>
       if String.eqb p default_model_path then Some (inr (Some forest))
       else if String.eqb p "models/corrupt.joblib" then Some (inl unpickling_error)
       else if String.eqb p "models/split.joblib" then Some (inl missing_part)
       else None;
     tape := fun n => (17 + 5 * Z.of_nat n)%Z;
     cursor := 0;
     stdout := [] |}.

Definition service (m : Model) : CreditMLService :=
  {| model_path := default_model_path; model := Some m |}.

Definition unloaded : CreditMLService :=
  {| model_path := default_model_path; model := None |}.

End Sample.

(* ================================================================= *)
(** ** Auxiliary definitions for the proofs about rounding *)

Module Rounding.

(** What a shift record knows of the integer [M] it was cut from after
    [k] halvings: the quotient, and whether anything was lost. *)
Definition cut_of (M k : Z) (mrs : shr_record) : Prop :=
  shr_m mrs = M / 2 ^ k /\
  (shr_r mrs || shr_s mrs = true -> M mod 2 ^ k <> 0).

(** The exponent of the binary64 format for a number of magnitude [e]. *)
Definition fexp64 (e : Z) : Z := Z.max (e - 53) (-1074).

(** The mantissas of [1.0] and [50.0]. *)
Definition m_one : positive := 4503599627370496.
Definition m_fifty : positive := 7036874417766400.

End Rounding.

(* ================================================================= *)
(** ** What a run leaves behind *)

(** The world [w'] is [w] after [n] draws and some printing: the files
    and the tape are the same. *)
Definition footprint (n : nat) (w w' : World) : Prop :=
  files w' = files w /\ tape w' = tape w /\
  cursor w' = (cursor w + n)%nat /\
  exists lines, stdout w' = stdout w ++ lines.

(** [result['success']] is [True]. *)
Definition is_success (r : pydict) : bool :=
  match dict_get (KStr "success") r with
  | Some (VBool true) => true
  | _ => false
  end.

(** The keys of the two dictionaries [predict_credit_score] builds, in
    insertion order. *)
Definition success_keys : list key :=
  map KStr [ "success"; "prediction_category"; "prediction_label";
             "credit_score_estimate"; "confidence"; "probabilities";
             "feature_importance"; "model_type"; "features_used" ].

Definition failure_keys : list key :=
  map KStr [ "success"; "error"; "prediction_category"; "prediction_label";
             "credit_score_estimate"; "confidence" ].

(** How many of the three optional attributes a model exposes. *)
Definition exposed_count (m : Model) : nat :=
  let one (attr : option pyval) : nat :=
    match attr with Some _ => 1%nat | None => 0%nat end in
  (one (n_estimators m) + one (max_depth m) + one (random_state m))%nat.

(* ================================================================= *)
(** ** The command-line shell: [main] *)

Module Shell.

(** The line feed of ["\nTest case ..."]. *)
Definition newline : string :=
  String (Ascii.Ascii false true false true false false false false) "".

(** [d[k]] for a string key: raises [KeyError] on a missing key. *)
Definition dict_item (k : string) (d : pydict) : exn + pyval :=
  match dict_get (KStr k) d with
  | Some v => inr v
  | None => inl (Exn "KeyError" ("'" ++ k ++ "'")%string)
  end.

(** The truth value of an object, as [if] takes it. *)
Definition truthy (v : pyval) : bool :=
  match v with
  | VNone => false
  | VBool b => b
  | VInt z => negb (z =? 0)
  | VFloat f => negb (f =? 0)%float
  | VStr s => negb (String.eqb s "")
  | VList l => match l with [] => false | _ => true end
  | VDict d => match d with [] => false | _ => true end
  end.

(** [except ValueError]: the clause takes the exceptions of that class
    (subclasses, which the modelled code never raises, are left out). *)
Definition is_ValueError (e : exn) : bool := String.eqb (exn_class e) "ValueError".

(** [try: c except ValueError as e: h e] *)
Definition try_except_ValueError {A : Type} (c : M A) (h : exn -> M A) : M A :=
  fun w =>
    match c w with
    | (inr a, w') => (inr a, w')
    | (inl e, w') => if is_ValueError e then h e w' else (inl e, w')
    end.

Definition usage : list (list piece) :=
  [ [Lit "Usage: python python_ml_service.py <command> [args...]"];
    [Lit "Commands:"];
    [Lit "  predict <features>  - Predict credit score"];
    [Lit "  info               - Get model information"];
    [Lit "  test               - Run test prediction"] ].

Definition need_seven : list (list piece) :=
  [ [Lit "Error: Need 7 feature values"];
    [Lit "Features: Outstanding_Debt, Credit_Mix, Credit_History_Age, Monthly_Balance, Payment_Behaviour, Annual_Income, Num_of_Delayed_Payment"] ].

(** The three canned profiles of the [test] command. *)
Definition test_features : list (list float) :=
  [ [5000; 1; 36; 2500; 85; 60000; 2];
    [15000; 0; 12; 8000; 45; 35000; 8];
    [8000; 2; 24; 4000; 70; 50000; 3] ]%float.

#[local] Open Scope py_scope.

(** Several [print]s in a row. *)
Fixpoint print_lines (lines : list (list piece)) : M unit :=
  match lines with
  | [] => ret tt
  | line :: rest => print line ;;; print_lines rest
  end.

Section Main.

(** Builtins of Python and of its library that the shell calls and the
    embedding does not define: [str.lower], [float] on a string,
    [json.dumps(v, indent=2)] and [format(v, ".2%")]. *)
Variable lower : string -> string.
Variable float_of_string : string -> exn + float.
Variable json_dumps : pyval -> string.
Variable format_percent : pyval -> exn + string.

(** [[float(x) for x in args]] *)
Fixpoint parse_features (args : list string) : exn + list float :=
  match args with
  | [] => inr []
  | x :: rest =>
      match float_of_string x with
      | inl e => inl e
      | inr f =>
          match parse_features rest with
          | inl e => inl e
          | inr fs => inr (f :: fs)
          end
      end
  end.

(** The [predict] command. *)
Definition predict_command (service : CreditMLService) (argv : list string)
  : M unit :=
  if (List.length argv <? 9)%nat then print_lines need_seven
  else
    try_except_ValueError
      (features <- lift (parse_features (firstn 7 (skipn 2 argv))) ;;
       result <- predict_credit_score service features ;;
       print [Lit (json_dumps (VDict result))])
      (fun e => print [Lit "Error parsing features: "; Val (VStr (str_exn e))]).

(** The [info] command. *)
Definition info_command (service : CreditMLService) : M unit :=
  let info := get_model_info service in
  print [Lit (json_dumps (VDict info))].

(** One turn of the loop of the [test] command, on item [i]. *)
Definition test_case (service : CreditMLService) (i : Z) (features : list float)
  : M unit :=
  print [Lit (newline ++ "Test case ")%string; Val (VInt (i + 1)); Lit ":"] ;;;
  print [Lit "Features: "; Val (VDict (features_used features))] ;;;
  result <- predict_credit_score service features ;;
  success <- lift (dict_item "success" result) ;;
  if truthy success then
    label <- lift (dict_item "prediction_label" result) ;;
    category <- lift (dict_item "prediction_category" result) ;;
    print [Lit "Prediction: "; Val label; Lit " (Category "; Val category; Lit ")"] ;;;
    score <- lift (dict_item "credit_score_estimate" result) ;;
    print [Lit "Credit Score Estimate: "; Val score] ;;;
    confidence <- lift (dict_item "confidence" result) ;;
    shown <- lift (format_percent confidence) ;;
    print [Lit "Confidence: "; Lit shown]
  else
    error <- lift (dict_item "error" result) ;;
    print [Lit "Error: "; Val error].

Fixpoint test_cases_from (service : CreditMLService) (i : Z)
    (cases : list (list float)) : M unit :=
  match cases with
  | [] => ret tt
  | features :: rest =>
      test_case service i features ;;; test_cases_from service (i + 1) rest
  end.

(** The [test] command. *)
Definition test_command (service : CreditMLService) : M unit :=
  print [Lit "Running test prediction..."] ;;;
  test_cases_from service 0 test_features.

(** [main()], with [sys.argv] as its argument. *)
Definition main (argv : list string) : M unit :=
  if (List.length argv <? 2)%nat then print_lines usage
  else
    (* [started] is [None] when the handler has printed and returned *)
    started <-
      try_except
        (service <- init default_model_path ;;
         ret (Some service))
        (fun e =>
           print [Lit "Failed to initialize ML service: "; Val (VStr (str_exn e))] ;;;
           ret None) ;;
    match started with
    | None => ret tt
    | Some service =>
        let command := lower (nth 1 argv "") in
        if String.eqb command "predict" then predict_command service argv
        else if String.eqb command "info" then info_command service
        else if String.eqb command "test" then test_command service
        else print [Lit "Unknown command: "; Val (VStr command)]
    end.

End Main.

End Shell.

(* ================================================================= *)
(** ** More sample objects *)

Module Sample2.

#[local] Open Scope float_scope.

(** A forest that reports eight importances for seven features. *)
Definition eight_importances : Model :=
  {| type_name := "RandomForestClassifier";
     predict := fun _ => inr 2%Z;
     predict_proba := None;
     feature_importances_ := Some [0.1; 0.1; 0.1; 0.1; 0.1; 0.1; 0.1; 0.3];
     n_estimators := Some (VInt 10);
     max_depth := None;
     random_state := None |}.

(** A classifier whose probabilities come out empty. *)
Definition no_probabilities : Model :=
  {| type_name := "DummyClassifier";
     predict := fun _ => inr 0%Z;
     predict_proba := Some (fun _ => inr []);
     feature_importances_ := None;
     n_estimators := None;
     max_depth := None;
     random_state := None |}.

(** A classifier whose first probability is not a number. *)
Definition nan_probabilities : Model :=
  {| type_name := "DummyClassifier";
     predict := fun _ => inr 0%Z;
     predict_proba := Some (fun _ => inr [nan; 0.5; 0.5]);
     feature_importances_ := None;
     n_estimators := None;
     max_depth := None;
     random_state := None |}.

Definition not_fitted : exn := Exn "NotFittedError" "This instance is not fitted yet".

(** A classifier that was never fitted. *)
Definition unfitted : Model :=
  {| type_name := "RandomForestClassifier";
     predict := fun _ => inl not_fitted;
     predict_proba := None;
     feature_importances_ := None;
     n_estimators := Some (VInt 100);
     max_depth := None;
     random_state := None |}.

(** A world whose default path holds a pickled [None]. *)
Definition world_of_none : World :=
  {| files := fun p =>
       if String.eqb p default_model_path then Some (inr None) else None;
     tape := fun n => Z.of_nat n;
     cursor := 0;
     stdout := [] |}.

(** A world with no file at all. *)
Definition empty_world : World :=
  {| files := fun _ => None;
     tape := fun n => Z.of_nat n;
     cursor := 0;
     stdout := [] |}.

(** Stand-ins for the builtins of the shell. *)
Definition lower (s : string) : string := s.

Definition float_of_string (s : string) : exn + float :=
  if String.eqb s "5000.0" then inr 5000
  else if String.eqb s "1" then inr 1
  else if String.eqb s "36" then inr 36
  else if String.eqb s "2" then inr 2
  else inl (ValueError ("could not convert string to float: '" ++ s ++ "'")%string).

Definition json_dumps (v : pyval) : string := "{...}".

Definition format_percent (v : pyval) : exn + string :=
  match v with
  | VFloat _ => inr "85.00%"
  | _ => inl (Exn "TypeError" "unsupported format string")
  end.

End Sample2.

(* ================================================================= *)
(** * Proofs *)

(** ** Rounding to nearest in binary64

    The float operations are specified by [SpecFloat]; the lemmas below
    bound the result of a rounding by a representable number, which is
    what the bounds on the variance need. *)

Module RoundingFacts.

Import Rounding.


Lemma digits2_size (p : positive) : digits2_pos p = Pos.size p.
Proof. induction p; simpl; congruence. Qed.

Lemma digits2_bounds (p : positive) :
  2 ^ (Zpos (digits2_pos p) - 1) <= Zpos p < 2 ^ Zpos (digits2_pos p).
Proof.
  rewrite digits2_size. split.
  - pose proof (Pos.size_le p) as H.
    assert (H' : 2 ^ Zpos (Pos.size p) <= 2 * Zpos p).
    { change 2 with (Zpos 2) at 1. rewrite <- Pos2Z.inj_pow.
      change (2 * Zpos p) with (Zpos p~0). now apply Pos2Z.pos_le_pos. }
    replace (Zpos (Pos.size p)) with (Zpos (Pos.size p) - 1 + 1) in H' by lia.
    rewrite Z.pow_add_r in H' by lia. lia.
  - pose proof (Pos.size_gt p) as H.
    change 2 with (Zpos 2). rewrite <- Pos2Z.inj_pow. now apply Pos2Z.pos_lt_pos.
Qed.


Lemma shr_1_cut M k mrs :
  0 <= k -> 0 <= M -> cut_of M k mrs -> cut_of M (k + 1) (shr_1 mrs).
Proof.
  intros Hk HM [Hm Hrs]. destruct mrs as [m r s]. simpl in Hm, Hrs.
  assert (HP : 0 < 2 ^ k) by (apply Z.pow_pos_nonneg; lia).
  assert (Hm0 : 0 <= m) by (subst m; apply Z.div_pos; lia).
  unfold cut_of. rewrite Z.pow_add_r, Z.pow_1_r by lia.
  set (P := 2 ^ k) in *.
  assert (Hdiv : M / (P * 2) = m / 2) by (subst m; now rewrite Z.div_div by lia).
  assert (Hmod : M mod (P * 2) = 0 -> m mod 2 = 0 /\ M mod P = 0).
  { intros H0. pose proof (Z.div_mod M (P * 2) ltac:(lia)) as E.
    rewrite H0, Z.add_0_r in E.
    assert (EM : M = (2 * (M / (P * 2))) * P) by lia.
    split.
    - subst m. rewrite EM at 1. rewrite Z.div_mul by lia.
      rewrite Z.mul_comm. apply Z.mod_mul. lia.
    - rewrite EM. apply Z.mod_mul. lia. }
  unfold shr_1.
  destruct m as [|[p|p|]|p]; simpl shr_m; simpl shr_r; simpl shr_s;
    try lia; (split; [rewrite Hdiv| intros Hb; intros H0; destruct (Hmod H0) as [Hp HP0] ]).
  all: try reflexivity.
  all: try (simpl in Hb; apply Hrs; assumption).
  - rewrite Pos2Z.inj_xI, Z.mul_comm, Z.div_add_l by lia. reflexivity.
  - rewrite Pos2Z.inj_xI in Hp.
    rewrite Z.mul_comm, Z.add_comm, Z.mod_add in Hp by lia. discriminate.
  - rewrite Pos2Z.inj_xO, Z.mul_comm, Z.div_mul by lia. reflexivity.
  - discriminate.
Qed.

Lemma iter_shr_1_cut (p : positive) :
  forall M k mrs, 0 <= k -> 0 <= M -> cut_of M k mrs ->
    cut_of M (k + Zpos p) (iter_pos shr_1 p mrs).
Proof.
  induction p as [p IH|p IH|]; intros M k mrs Hk HM H; simpl.
  - apply (shr_1_cut _ _ _ Hk HM) in H.
    apply (IH _ (k + 1)) in H; [|lia|lia].
    apply (IH _ (k + 1 + Zpos p)) in H; [|lia|lia].
    now replace (k + Zpos p~1) with (k + 1 + Zpos p + Zpos p) by lia.
  - apply (IH _ k) in H; [|lia|lia].
    apply (IH _ (k + Zpos p)) in H; [|lia|lia].
    now replace (k + Zpos p~0) with (k + Zpos p + Zpos p) by lia.
  - now apply shr_1_cut.
Qed.


Lemma fexp_64 e : fexp prec emax e = fexp64 e.
Proof. reflexivity. Qed.

(** The first step of rounding: the mantissa is cut down to the
    precision of the format, and the record remembers whether anything
    was lost. *)
Lemma shr_fexp_exact (m e : Z) :
  0 <= m ->
  exists mrs n,
    shr_fexp prec emax m e loc_Exact = (mrs, e + n) /\
    n = Z.max 0 (fexp64 (Zdigits2 m + e) - e) /\
    cut_of m n mrs.
Proof.
  intros Hm. unfold shr_fexp, shr. rewrite fexp_64.
  assert (H0 : cut_of m 0 (shr_record_of_loc m loc_Exact)).
  { split; simpl; [now rewrite Z.div_1_r | discriminate]. }
  destruct (fexp64 (Zdigits2 m + e) - e) as [|p|p] eqn:E.
  - exists (shr_record_of_loc m loc_Exact), 0. rewrite Z.add_0_r. auto.
  - exists (iter_pos shr_1 p (shr_record_of_loc m loc_Exact)), (Zpos p).
    repeat split; try lia.
    + apply (iter_shr_1_cut p m 0); auto; lia.
    + apply (iter_shr_1_cut p m 0); auto; lia.
  - exists (shr_record_of_loc m loc_Exact), 0. rewrite Z.add_0_r.
    repeat split; try lia; apply H0.
Qed.

Lemma round_nearest_even_cases (mrs : shr_record) :
  let m' := round_nearest_even (shr_m mrs) (loc_of_shr_record mrs) in
  m' = shr_m mrs \/ (m' = shr_m mrs + 1 /\ shr_r mrs || shr_s mrs = true).
Proof.
  destruct mrs as [m [|] [|]]; simpl; auto.
  destruct (Z.even m); auto.
Qed.

(** Magnitudes are monotone: a smaller value has no more digits above
    the binary point. *)
Lemma mag_le (a b : positive) (ea eb K : Z) :
  0 <= ea + K -> 0 <= eb + K ->
  Zpos a * 2 ^ (ea + K) <= Zpos b * 2 ^ (eb + K) ->
  Zpos (digits2_pos a) + ea <= Zpos (digits2_pos b) + eb.
Proof.
  intros Ha Hb H.
  pose proof (digits2_bounds a) as [La _].
  pose proof (digits2_bounds b) as [_ Ub].
  assert (Hlt : 2 ^ (Zpos (digits2_pos a) - 1 + (ea + K)) < 2 ^ (Zpos (digits2_pos b) + (eb + K))).
  { rewrite (Z.pow_add_r 2 (Zpos (digits2_pos a) - 1) (ea + K)) by lia.
    rewrite (Z.pow_add_r 2 (Zpos (digits2_pos b)) (eb + K)) by lia.
    assert (Pa : 0 < 2 ^ (ea + K)) by (apply Z.pow_pos_nonneg; lia).
    assert (Pb : 0 < 2 ^ (eb + K)) by (apply Z.pow_pos_nonneg; lia).
    apply Z.le_lt_trans with (Zpos a * 2 ^ (ea + K)).
    - apply Z.mul_le_mono_nonneg_r; lia.
    - apply Z.le_lt_trans with (1 := H). apply Z.mul_lt_mono_pos_r; lia. }
  apply Z.pow_lt_mono_r_iff in Hlt; lia.
Qed.


Lemma fexp64_mono (a b : Z) : a <= b -> fexp64 a <= fexp64 b.
Proof. unfold fexp64. lia. Qed.

Lemma pow2_pos (k : Z) : 0 <= k -> 0 < 2 ^ k.
Proof. intros. apply Z.pow_pos_nonneg; lia. Qed.

(** Rounding to nearest never crosses a representable number: if the
    exact value [mx * 2^ex] is at most the value of a canonical pair
    [(mb, eb)], so is the rounded result.  Values are compared after
    scaling by [2^K], which keeps every exponent non-negative. *)
Lemma binary_round_aux_le (sx : bool) (mx mb : positive) (ex eb K : Z) :
  fexp64 (Zpos (digits2_pos mb) + eb) = eb ->
  0 <= ex + K -> 0 <= eb + K ->
  Zpos mx * 2 ^ (ex + K) <= Zpos mb * 2 ^ (eb + K) ->
  Z.max ex eb <= 971 ->
  binary_round_aux prec emax sx (Zpos mx) ex loc_Exact = S754_zero sx \/
  exists m e,
    binary_round_aux prec emax sx (Zpos mx) ex loc_Exact = S754_finite sx m e /\
    ex <= e <= Z.max ex eb /\
    Zpos m * 2 ^ (e + K) <= Zpos mb * 2 ^ (eb + K).
Proof.
  intros Hcan Hex Heb Hle Hmax. unfold binary_round_aux.
  destruct (shr_fexp_exact (Zpos mx) ex) as (mrs1 & n1 & E1 & Hn1 & Hm1 & Hloc1);
    [lia|]. rewrite E1.
  pose proof (round_nearest_even_cases mrs1) as Hr. cbv zeta in Hr.
  set (m2 := round_nearest_even (shr_m mrs1) (loc_of_shr_record mrs1)) in *.
  set (B := Zpos mb * 2 ^ (eb + K)) in *.
  assert (Hn1' : 0 <= n1) by lia.
  pose proof (pow2_pos n1 Hn1') as Pn1.
  pose proof (pow2_pos (ex + K) Hex) as Pex.
  assert (Hmag : Zpos (digits2_pos mx) + ex <= Zpos (digits2_pos mb) + eb)
    by (apply (mag_le mx mb ex eb K); assumption).
  apply fexp64_mono in Hmag. rewrite Hcan in Hmag.
  assert (He1 : ex + n1 <= Z.max ex eb) by (simpl Zdigits2 in Hn1; lia).
  assert (Epow : 2 ^ (ex + n1 + K) = 2 ^ n1 * 2 ^ (ex + K)).
  { rewrite <- Z.pow_add_r by lia. f_equal. lia. }
  assert (Hm1pos : 0 <= shr_m mrs1) by (rewrite Hm1; apply Z.div_pos; lia).
  assert (B2 : 0 <= m2 /\ m2 * 2 ^ (ex + n1 + K) <= B).
  { destruct Hr as [Hr | [Hr Hlossy]]; rewrite Hr; split; try lia.
    - rewrite Epow, Hm1, Z.mul_assoc.
      apply Z.le_trans with (2 := Hle).
      apply Z.mul_le_mono_nonneg_r; [lia|].
      rewrite Z.mul_comm. apply Z.mul_div_le. lia.
    - apply Hloc1 in Hlossy.
      assert (n1 <> 0) by (intros ->; apply Hlossy; now rewrite Z.mod_1_r).
      assert (He : ex + n1 <= eb) by (simpl Zdigits2 in Hn1; lia).
      set (J := Zpos mb * 2 ^ (eb - (ex + n1))).
      assert (EB : B = J * 2 ^ (ex + n1 + K)).
      { unfold B, J. rewrite <- Z.mul_assoc, <- Z.pow_add_r by lia.
        do 2 f_equal. lia. }
      rewrite EB. apply Z.mul_le_mono_nonneg_r; [apply Z.lt_le_incl, pow2_pos; lia|].
      assert (HJ : Zpos mx <= J * 2 ^ n1).
      { rewrite EB, Epow, Z.mul_assoc in Hle.
        apply Z.mul_le_mono_pos_r in Hle; assumption. }
      assert (Hne : Zpos mx <> J * 2 ^ n1).
      { intros E. apply Hlossy. rewrite E. apply Z.mod_mul. lia. }
      rewrite Hm1.
      assert (Zpos mx / 2 ^ n1 < J); [|lia].
      apply Z.div_lt_upper_bound; [lia|]. rewrite Z.mul_comm. lia. }
  destruct B2 as [Hm2pos Hm2le].
  destruct (shr_fexp_exact m2 (ex + n1) Hm2pos) as (mrs2 & n2 & E2 & Hn2 & Hm2 & _).
  rewrite E2, Hm2.
  assert (Hn2' : 0 <= n2) by lia.
  pose proof (pow2_pos n2 Hn2') as Pn2.
  destruct (m2 / 2 ^ n2) as [|m3|m3] eqn:E3.
  - now left.
  - right.
    assert (Hm2gt : 0 < m2).
    { destruct (Z.eq_dec m2 0) as [Z0|]; [|lia].
      rewrite Z0, Z.div_0_l in E3 by lia. discriminate. }
    destruct m2 as [|p2|p2]; try lia.
    assert (Hmag2 : Zpos (digits2_pos p2) + (ex + n1) <= Zpos (digits2_pos mb) + eb)
      by (apply (mag_le p2 mb (ex + n1) eb K); [lia|lia|assumption]).
    apply fexp64_mono in Hmag2. rewrite Hcan in Hmag2. simpl Zdigits2 in Hn2.
    assert (He2 : ex + n1 + n2 <= Z.max ex eb) by lia.
    assert (Hleb : (ex + n1 + n2 <=? emax - prec) = true).
    { apply Z.leb_le. change (emax - prec) with 971. lia. }
    rewrite Hleb. exists m3, (ex + n1 + n2). split; [reflexivity|]. split; [lia|].
    apply Z.le_trans with (2 := Hm2le). rewrite <- E3.
    replace (ex + n1 + n2 + K) with (n2 + (ex + n1 + K)) by lia.
    rewrite Z.pow_add_r, Z.mul_assoc by lia.
    apply Z.mul_le_mono_nonneg_r; [apply Z.lt_le_incl, pow2_pos; lia|].
    rewrite Z.mul_comm. apply Z.mul_div_le. lia.
  - exfalso. assert (0 <= m2 / 2 ^ n2) by (apply Z.div_pos; lia). lia.
Qed.


Lemma pos_iter_xO (d m : positive) : Zpos (Pos.iter xO m d) = Zpos m * 2 ^ Zpos d.
Proof.
  induction d as [|d IH] using Pos.peano_ind.
  - simpl. lia.
  - rewrite Pos.iter_succ, Pos2Z.inj_xO, IH, Pos2Z.inj_succ, Z.pow_succ_r by lia. lia.
Qed.

Lemma shl_align_spec (mx : positive) (ex ex' : Z) :
  snd (shl_align mx ex ex') = Z.min ex ex' /\
  Zpos (fst (shl_align mx ex ex')) = Zpos mx * 2 ^ (ex - Z.min ex ex').
Proof.
  unfold shl_align. destruct (ex' - ex) as [|d|d] eqn:E; cbn [fst snd].
  - replace (Z.min ex ex') with ex by lia. rewrite Z.sub_diag, Z.pow_0_r. lia.
  - replace (Z.min ex ex') with ex by lia. rewrite Z.sub_diag, Z.pow_0_r. lia.
  - replace (Z.min ex ex') with ex' by lia. rewrite pos_iter_xO. split; [reflexivity|].
    do 2 f_equal. lia.
Qed.

Lemma SFleb_finite_pos (m1 m2 : positive) (e1 e2 : Z) :
  SFleb (S754_finite false m1 e1) (S754_finite false m2 e2) = true ->
  e1 < e2 \/ (e1 = e2 /\ Zpos m1 <= Zpos m2).
Proof.
  unfold SFleb, SFcompare.
  destruct (Z.compare_spec e1 e2) as [E|E|E]; try discriminate; [|now left].
  change (Pos.compare_cont Eq m1 m2) with (Pos.compare m1 m2).
  destruct (Pos.compare_spec m1 m2) as [C|C|C]; try discriminate; intros _; right; lia.
Qed.

Lemma unit_interval_cases (x : spec_float) :
  valid_binary x = true ->
  SFleb (S754_zero false) x = true -> SFleb x (S754_finite false m_one (-52)) = true ->
  (exists s, x = S754_zero s) \/
  exists m e, x = S754_finite false m e /\ -1074 <= e <= -52 /\ Zpos m <= 2 ^ (- e).
Proof.
  intros Hv H0 H1. destruct x as [s|s| |s m e].
  - left. now exists s.
  - destruct s; discriminate.
  - discriminate.
  - right. destruct s; [discriminate|]. exists m, e. split; [reflexivity|].
    unfold valid_binary, bounded, canonical_mantissa in Hv.
    apply andb_true_iff in Hv. destruct Hv as [Hc Hb].
    apply Z.eqb_eq in Hc. rewrite fexp_64 in Hc. unfold fexp64 in Hc.
    pose proof (digits2_bounds m) as [Lm Um].
    apply SFleb_finite_pos in H1. destruct H1 as [E|[E Hm]].
    + split; [lia|].
      assert (Hd : Zpos (digits2_pos m) <= 53) by lia.
      apply Z.lt_le_incl. apply Z.lt_le_trans with (1 := Um).
      apply Z.pow_le_mono_r; lia.
    + subst e. split; [lia|]. change (2 ^ (- -52)) with 4503599627370496. exact Hm.
Qed.

Lemma m_one_val : Zpos m_one = 2 ^ 52. Proof. reflexivity. Qed.
Lemma m_fifty_val : Zpos m_fifty = 50 * 2 ^ 47. Proof. reflexivity. Qed.
Lemma one_canonical : fexp64 (Zpos (digits2_pos m_one) + -52) = -52.
Proof. reflexivity. Qed.
Lemma fifty_canonical : fexp64 (Zpos (digits2_pos m_fifty) + -47) = -47.
Proof. reflexivity. Qed.

(** [1 - x] for a float [x] of the unit interval: zero or a positive
    float that is at most one. *)
Lemma SFsub_one_unit (m : positive) (e K : Z) :
  -1074 <= e <= -52 -> Zpos m <= 2 ^ (- e) -> 1074 <= K ->
  let r := SF64sub (S754_finite false m_one (-52)) (S754_finite false m e) in
  r = S754_zero false \/
  exists m1 e1, r = S754_finite false m1 e1 /\ -1074 <= e1 <= -52 /\
                Zpos m1 * 2 ^ (e1 + K) <= 2 ^ K.
Proof.
  intros He Hm HK r. subst r. unfold SF64sub, SFsub. cbn [cond_Zopp].
  replace (Z.min (-52) e) with e by lia.
  destruct (shl_align_spec m_one (-52) e) as [_ H1].
  destruct (shl_align_spec m e e) as [_ H2].
  replace (Z.min (-52) e) with e in H1 by lia.
  replace (Z.min e e) with e in H2 by lia.
  rewrite Z.sub_diag, Z.pow_0_r, Z.mul_1_r in H2.
  rewrite H1, H2, m_one_val, <- Z.pow_add_r by lia.
  replace (52 + (-52 - e)) with (- e) by lia.
  destruct (2 ^ (- e) - Zpos m) as [|p|p] eqn:D; try lia.
  - now left.
  - cbn [binary_normalize]. unfold binary_round.
    set (e' := fexp prec emax (Zpos (digits2_pos p) + e)).
    destruct (shl_align_spec p e e') as [A1 A2].
    destruct (shl_align p e e') as [mz ez]. cbn [fst snd] in A1, A2.
    assert (He' : -1074 <= e') by (unfold e'; rewrite fexp_64; unfold fexp64; lia).
    destruct (binary_round_aux_le false mz m_one ez (-52) K one_canonical)
      as [Z0 | (m1 & e1 & E1 & He1 & Hv1)]; try lia.
    + assert (E1 : 2 ^ (e - ez) * 2 ^ (ez + K) = 2 ^ (e + K))
        by (rewrite <- Z.pow_add_r by lia; f_equal; lia).
      assert (E2 : 2 ^ 52 * 2 ^ (-52 + K) = 2 ^ (- e) * 2 ^ (e + K))
        by (rewrite <- !Z.pow_add_r by lia; f_equal; lia).
      rewrite <- A1 in A2. rewrite A2, m_one_val, <- Z.mul_assoc, E1, E2.
      apply Z.mul_le_mono_nonneg_r; [apply Z.lt_le_incl, pow2_pos; lia | lia].
    + now left.
    + right. exists m1, e1. split; [assumption|]. split; [lia|].
      rewrite m_one_val, <- Z.pow_add_r in Hv1 by lia.
      now replace (52 + (-52 + K)) with K in Hv1 by lia.
Qed.

(** [x * 50] for a positive float [x <= 1]: zero or a positive float
    that is at most fifty. *)
Lemma SFmul_fifty_unit (m1 : positive) (e1 : Z) :
  -1074 <= e1 <= -52 -> Zpos m1 * 2 ^ (e1 + 1153) <= 2 ^ 1153 ->
  let r := SF64mul (S754_finite false m1 e1) (S754_finite false m_fifty (-47)) in
  r = S754_zero false \/
  exists m2 e2, r = S754_finite false m2 e2 /\ -1200 <= e2 <= -47 /\
                Zpos m2 * 2 ^ (e2 + 1200) <= 50 * 2 ^ 1200.
Proof.
  intros He Hv r. subst r. unfold SF64mul, SFmul. cbn [xorb].
  assert (E : 50 * 2 ^ 1200 = Zpos m_fifty * 2 ^ (-47 + 1200)).
  { rewrite m_fifty_val, <- Z.mul_assoc, <- Z.pow_add_r by lia. reflexivity. }
  destruct (binary_round_aux_le false (m1 * m_fifty) m_fifty (e1 + -47) (-47) 1200
              fifty_canonical) as [Z0 | (m2 & e2 & E2 & He2 & Hv2)]; try lia.
  - rewrite Pos2Z.inj_mul, (Z.mul_comm (Zpos m1)), <- Z.mul_assoc.
    apply Z.mul_le_mono_nonneg_l; [lia|].
    replace (e1 + -47 + 1200) with (e1 + 1153) by lia. exact Hv.
  - now left.
  - right. exists m2, e2. rewrite E. repeat split; try assumption; lia.
Qed.

Lemma shiftl_unit_bound (m : positive) (e : Z) :
  -1200 <= e <= -47 -> Zpos m * 2 ^ (e + 1200) <= 50 * 2 ^ 1200 ->
  0 <= Z.shiftl (Zpos m) e <= 50.
Proof.
  intros He Hv. rewrite Z.shiftl_div_pow2 by lia.
  assert (P : 0 < 2 ^ (- e)) by (apply pow2_pos; lia).
  split; [apply Z.div_pos; lia|].
  apply Z.div_le_upper_bound; [assumption|].
  assert (E : 2 ^ 1200 = 2 ^ (- e) * 2 ^ (e + 1200))
    by (rewrite <- Z.pow_add_r by lia; f_equal; lia).
  rewrite E, Z.mul_assoc in Hv.
  apply Z.mul_le_mono_pos_r in Hv; [lia | apply pow2_pos; lia].
Qed.

Lemma Prim2SF_0 : Prim2SF 0%float = S754_zero false.
Proof. reflexivity. Qed.
Lemma Prim2SF_1 : Prim2SF 1%float = S754_finite false m_one (-52).
Proof. reflexivity. Qed.
Lemma Prim2SF_50 : Prim2SF 50%float = S754_finite false m_fifty (-47).
Proof. reflexivity. Qed.

(** The variance of a confidence of the unit interval. *)
Lemma variance_of_unit (c : float) :
  (0 <=? c)%float = true -> (c <=? 1)%float = true ->
  exists v, variance_of c = inr v /\ 0 <= v <= 50 /\
            PyFloat.floor_of_float ((1 - c) * 50)%float = inr v.
Proof.
  intros H0 H1. rewrite leb_spec in H0, H1. rewrite Prim2SF_0 in H0. rewrite Prim2SF_1 in H1.
  unfold variance_of, PyFloat.int_of_float, PyFloat.floor_of_float.
  rewrite mul_spec, sub_spec, Prim2SF_1, Prim2SF_50.
  assert (Hone : forall m1 e1, -1074 <= e1 <= -52 -> Zpos m1 * 2 ^ (e1 + 1153) <= 2 ^ 1153 ->
     exists v,
       match SF64mul (S754_finite false m1 e1) (S754_finite false m_fifty (-47)) with
       | S754_zero _ => inr 0
       | S754_infinity _ => inl (OverflowError "cannot convert float infinity to integer")
       | S754_nan => inl (ValueError "cannot convert float NaN to integer")
       | S754_finite s m e => inr (cond_Zopp s (Z.shiftl (Zpos m) e))
       end = inr v /\ 0 <= v <= 50 /\
       match SF64mul (S754_finite false m1 e1) (S754_finite false m_fifty (-47)) with
       | S754_zero _ => inr 0
       | S754_infinity _ => inl (OverflowError "cannot convert float infinity to integer")
       | S754_nan => inl (ValueError "cannot convert float NaN to integer")
       | S754_finite s m e => inr (Z.shiftl (cond_Zopp s (Zpos m)) e)
       end = inr v).
  { intros m1 e1 He1 Hv1.
    destruct (SFmul_fifty_unit m1 e1 He1 Hv1) as [-> | (m2 & e2 & -> & He2 & Hv2)].
    - exists 0. repeat split; lia.
    - exists (Z.shiftl (Zpos m2) e2). cbn [cond_Zopp].
      repeat split; apply (shiftl_unit_bound m2 e2 He2 Hv2). }
  destruct (unit_interval_cases (Prim2SF c) (Prim2SF_valid c) H0 H1)
    as [[s ->] | (m & e & -> & He & Hm)].
  - change (SF64sub (S754_finite false m_one (-52)) (S754_zero s))
      with (S754_finite false m_one (-52)).
    apply Hone; [lia|]. rewrite m_one_val, <- Z.pow_add_r by lia. reflexivity.
  - destruct (SFsub_one_unit m e 1153 He Hm ltac:(lia))
      as [-> | (m1 & e1 & -> & He1 & Hv1)].
    + exists 0. repeat split; lia.
    + now apply Hone.
Qed.

End RoundingFacts.

(** ** The order on floats *)

Module FloatOrder.

Ltac cmp_cases :=
  repeat match goal with
  | |- context [Z.compare ?a ?b] => destruct (Z.compare_spec a b)
  | H : context [Z.compare ?a ?b] |- _ => destruct (Z.compare_spec a b)
  | |- context [Pos.compare_cont Eq ?a ?b] =>
      change (Pos.compare_cont Eq a b) with (Pos.compare a b);
      destruct (Pos.compare_spec a b)
  | H : context [Pos.compare_cont Eq ?a ?b] |- _ =>
      change (Pos.compare_cont Eq a b) with (Pos.compare a b) in H;
      destruct (Pos.compare_spec a b)
  end.

Lemma SFleb_ltb_trans (a b c : spec_float) :
  SFleb a b = true -> SFltb b c = true -> SFleb a c = true.
Proof.
  unfold SFleb, SFltb.
  destruct a as [sa|sa| |sa ma ea], b as [sb|sb| |sb mb eb], c as [sc|sc| |sc mc ec];
    try destruct sa; try destruct sb; try destruct sc; cbn [SFcompare];
    try discriminate; try reflexivity;
    intros H1 H2; cmp_cases; simpl in *; try discriminate; try reflexivity; lia.
Qed.

Lemma SFltb_false_leb (a b : spec_float) :
  a <> S754_nan -> b <> S754_nan -> SFltb a b = false -> SFleb b a = true.
Proof.
  unfold SFleb, SFltb.
  destruct a as [sa|sa| |sa ma ea], b as [sb|sb| |sb mb eb];
    try destruct sa; try destruct sb; cbn [SFcompare];
    try discriminate; try reflexivity; try congruence;
    intros _ _ H; cmp_cases; simpl in *; try discriminate; try reflexivity; lia.
Qed.

Lemma SFleb_refl (a : spec_float) : a <> S754_nan -> SFleb a a = true.
Proof.
  unfold SFleb. destruct a as [sa|sa| |sa ma ea]; try destruct sa; cbn [SFcompare];
    try reflexivity; try congruence; intros _;
    rewrite Z.compare_refl, Pos.compare_cont_refl; reflexivity.
Qed.

Lemma SFeqb_nan (a : spec_float) : SFeqb a a = false <-> a = S754_nan.
Proof.
  unfold SFeqb. destruct a as [sa|sa| |sa ma ea]; try destruct sa; cbn [SFcompare];
    try rewrite Z.compare_refl, Pos.compare_cont_refl; simpl;
    split; intros; try discriminate; reflexivity.
Qed.

Lemma SFltb_zero_false (x : spec_float) :
  SFltb x (S754_zero false) = false <->
  SFleb (S754_zero false) x = true \/ x = S754_nan.
Proof.
  unfold SFltb, SFleb. destruct x as [s|s| |s m e]; try destruct s; cbn [SFcompare];
    split; intros; try discriminate; try reflexivity; auto;
    destruct H; discriminate.
Qed.

End FloatOrder.

(** ** Facts on primitive floats, through their specification *)

Module FloatFacts.

Import FloatOrder.
#[local] Open Scope float_scope.

Lemma is_nan_spec (x : float) :
  PyFloat.is_nan x = false <-> Prim2SF x <> S754_nan.
Proof.
  unfold PyFloat.is_nan. rewrite eqb_spec, negb_false_iff. split.
  - intros H E. apply (proj2 (SFeqb_nan _)) in E. congruence.
  - intros H. destruct (SFeqb (Prim2SF x) (Prim2SF x)) eqn:E; [reflexivity|].
    apply SFeqb_nan in E. contradiction.
Qed.

(** The test of the validator, [x < 0], fails exactly on the floats
    that are at least zero and on NaN. *)
Lemma ltb_zero (x : float) : (x <? 0) = negb (Spec.not_negative x).
Proof.
  unfold Spec.not_negative, Spec.nonneg, PyFloat.is_nan.
  rewrite ltb_spec, leb_spec, eqb_spec, RoundingFacts.Prim2SF_0.
  destruct (Prim2SF x) as [s|s| |s m e]; try destruct s;
    unfold SFltb, SFleb, SFeqb; cbn [SFcompare]; try reflexivity;
    rewrite ?Z.compare_refl, ?Pos.compare_cont_refl; reflexivity.
Qed.

Lemma leb_refl (x : float) : PyFloat.is_nan x = false -> (x <=? x) = true.
Proof. rewrite is_nan_spec, leb_spec. apply SFleb_refl. Qed.

Lemma leb_ltb_trans (a b c : float) :
  (a <=? b) = true -> (b <? c) = true -> (a <=? c) = true.
Proof. rewrite !leb_spec, ltb_spec. apply SFleb_ltb_trans. Qed.

Lemma ltb_false_leb (a b : float) :
  PyFloat.is_nan a = false -> PyFloat.is_nan b = false ->
  (a <? b) = false -> (b <=? a) = true.
Proof. rewrite !is_nan_spec, ltb_spec, leb_spec. apply SFltb_false_leb. Qed.

(** [int] truncates toward zero and [math.floor] rounds down: they
    part below zero. *)
Example int_and_floor :
  PyFloat.int_of_float 7.9 = inr 7%Z /\ PyFloat.floor_of_float 7.9 = inr 7%Z /\
  PyFloat.int_of_float (-7.9) = inr (-7)%Z /\
  PyFloat.floor_of_float (-7.9) = inr (-8)%Z /\
  PyFloat.int_of_float (-0.5) = inr 0%Z /\
  PyFloat.floor_of_float (-0.5) = inr (-1)%Z /\
  PyFloat.int_of_float 3e4 = inr 30000%Z /\
  PyFloat.floor_of_float (-3e4) = inr (-30000)%Z.
Proof. repeat split; vm_compute; reflexivity. Qed.

(** The loop of [max]: the running maximum is one of the items seen
    and is at least each of them. *)
Lemma fold_max_greatest (xs : list float) :
  forall (seen : list float) (cur : float),
    (forall x, In x (seen ++ xs) -> PyFloat.is_nan x = false) ->
    In cur seen -> (forall y, In y seen -> (y <=? cur) = true) ->
    let r := fold_left (fun cur item => if cur <? item then item else cur) xs cur in
    In r (seen ++ xs) /\ forall y, In y (seen ++ xs) -> (y <=? r) = true.
Proof.
  induction xs as [|x xs IH]; intros seen cur Hnan Hin Hle; cbn [fold_left].
  - rewrite app_nil_r. split; assumption.
  - assert (Nx : PyFloat.is_nan x = false) by (apply Hnan, in_or_app; right; now left).
    assert (Nc : PyFloat.is_nan cur = false) by (apply Hnan, in_or_app; now left).
    replace (seen ++ x :: xs) with ((seen ++ [x]) ++ xs) in *
      by (rewrite <- app_assoc; reflexivity).
    apply IH; [assumption| |].
    + destruct (cur <? x); apply in_or_app; [right; now left | now left].
    + intros y Hy. apply in_app_or in Hy. destruct Hy as [Hy|[<-|[]]].
      * destruct (cur <? x) eqn:C; [|now apply Hle].
        apply leb_ltb_trans with cur; [now apply Hle | exact C].
      * destruct (cur <? x) eqn:C; [now apply leb_refl | now apply ltb_false_leb].
Qed.

(** On a sequence without NaN, [max] returns a greatest item. *)
Lemma py_max_greatest (l : list float) (r : float) :
  PyFloat.py_max l = inr r ->
  (forall x, In x l -> PyFloat.is_nan x = false) ->
  In r l /\ forall x, In x l -> (x <=? r) = true.
Proof.
  destruct l as [|x xs]; [discriminate|]. cbn [PyFloat.py_max].
  intros E Hnan. injection E as <-.
  apply (fold_max_greatest xs [x] x); [exact Hnan | now left |].
  intros y [<-|[]]. apply leb_refl, Hnan. now left.
Qed.

End FloatFacts.

(** ** How the operations run *)

Module Runs.

#[local] Open Scope py_scope.

Lemma printed_nil (w : World) : printed [] w = w.
Proof. destruct w. unfold printed. cbn. now rewrite app_nil_r. Qed.

(** [validate_features] never raises: it reports the first violated
    rule and returns [False], or prints nothing and returns [True]. *)
Lemma validate_features_run (features : list float) (w : World) :
  validate_features features w =
    match Spec.first_violation features with
    | None => (inr true, w)
    | Some line => (inr false, printed [line] w)
    end.
Proof.
  destruct features as [|debt [|mix [|age [|mb [|pb [|income [|delayed [|x rest]]]]]]]];
    try reflexivity.
  unfold validate_features, Spec.first_violation, Spec.rules.
  cbn [List.length feature_names Nat.eqb negb find fst snd option_map].
  rewrite !FloatFacts.ltb_zero.
  destruct (Spec.not_negative debt); [|reflexivity].
  destruct (PyFloat.in_0_1_2 mix); [|reflexivity].
  destruct (Spec.not_negative age); [|reflexivity].
  destruct (Spec.not_negative income); [|reflexivity].
  destruct (Spec.not_negative delayed); reflexivity.
Qed.

Lemma first_violation_valid (features : list float) :
  Spec.first_violation features = None <-> Spec.valid features = true.
Proof.
  destruct features as [|debt [|mix [|age [|mb [|pb [|income [|delayed [|x rest]]]]]]]];
    try (split; discriminate).
  unfold Spec.first_violation, Spec.rules, Spec.valid.
  cbn [List.length Nat.eqb negb find fst snd option_map].
  destruct (Spec.not_negative debt), (PyFloat.in_0_1_2 mix), (Spec.not_negative age),
    (Spec.not_negative income), (Spec.not_negative delayed);
    cbn; split; (reflexivity || discriminate).
Qed.

Lemma validate_features_valid (features : list float) (w : World) :
  Spec.valid features = true -> validate_features features w = (inr true, w).
Proof.
  intros H. apply first_violation_valid in H.
  now rewrite validate_features_run, H.
Qed.

Lemma validate_features_invalid (features : list float) (w : World) :
  Spec.valid features = false ->
  exists line, Spec.first_violation features = Some line /\
               validate_features features w = (inr false, printed [line] w).
Proof.
  intros H. rewrite validate_features_run.
  destruct (Spec.first_violation features) as [line|] eqn:E.
  - now exists line.
  - apply first_violation_valid in E. congruence.
Qed.

(** The draw of [convert_category_to_score]. *)
Lemma randint_symmetric (v : Z) (w : World) :
  0 <= v <= int64_max ->
  randint (- v) (v + 1) w =
    (inr (- v + tape w (cursor w) mod (2 * v + 1)), drawn w).
Proof.
  intros Hv. unfold randint, int64_min, int64_max in *.
  destruct (Z.ltb_spec (- v) (- 2 ^ 63)); [lia|].
  destruct (Z.gtb_spec (v + 1 - 1) (2 ^ 63 - 1)); [lia|].
  destruct (Z.gtb_spec (- v) (v + 1 - 1)); [lia|].
  unfold drawn. replace (v + 1 - - v) with (2 * v + 1) by lia. reflexivity.
Qed.

Lemma randint_refused (v : Z) (w : World) :
  v < 0 \/ int64_max < v ->
  exists msg, randint (- v) (v + 1) w = (inl (ValueError msg), w).
Proof.
  intros Hv. unfold randint, int64_min, int64_max in *.
  destruct (Z.ltb_spec (- v) (- 2 ^ 63)); [eexists; reflexivity|].
  destruct (Z.gtb_spec (v + 1 - 1) (2 ^ 63 - 1)); [eexists; reflexivity|].
  destruct (Z.gtb_spec (- v) (v + 1 - 1)); [eexists; reflexivity|lia].
Qed.

Lemma convert_returns (category : Z) (confidence : float) (v : Z) (w : World) :
  variance_of confidence = inr v -> 0 <= v <= int64_max ->
  convert_category_to_score category confidence w =
    (inr (clamp_score
            (base_score category + (- v + tape w (cursor w) mod (2 * v + 1)))),
     drawn w).
Proof.
  intros E Hv. unfold convert_category_to_score, bind, lift. rewrite E.
  cbn [ret]. now rewrite randint_symmetric.
Qed.

Lemma convert_raises (category : Z) (confidence : float) (w : World) :
  (exists e, variance_of confidence = inl e) \/
  (exists v, variance_of confidence = inr v /\ (v < 0 \/ int64_max < v)) ->
  exists e, convert_category_to_score category confidence w = (inl e, w).
Proof.
  unfold convert_category_to_score, bind, lift.
  intros [[e E] | (v & E & Hv)]; rewrite E.
  - now exists e.
  - cbn [ret]. destruct (randint_refused v w Hv) as [msg ->]. now eexists.
Qed.

Lemma clamp_score_range (s : Z) : 300 <= clamp_score s <= 850.
Proof. unfold clamp_score. lia. Qed.

(** A score that [convert_category_to_score] returns is a clamped one. *)
Lemma convert_in_range (category : Z) (confidence : float) (w w' : World) (s : Z) :
  convert_category_to_score category confidence w = (inr s, w') ->
  300 <= s <= 850.
Proof.
  unfold convert_category_to_score, bind, lift.
  destruct (variance_of confidence) as [e|v]; [discriminate|]. cbn [ret].
  destruct (randint (- v) (v + 1) w) as [[e|a] w1]; [discriminate|].
  intros E. injection E as <- _. apply clamp_score_range.
Qed.

End Runs.

(** ** The prediction pipeline *)

Module Pipeline.

Import Runs.
#[local] Open Scope py_scope.

Lemma predict_body_invalid (self : CreditMLService) (features : list float) (w : World) :
  Spec.valid features = false ->
  exists line,
    Spec.first_violation features = Some line /\
    predict_body self features w =
      (inl (ValueError "Invalid features provided"), printed [line] w).
Proof.
  intros H. destruct (validate_features_invalid features w H) as (line & E1 & E2).
  exists line. split; [assumption|]. unfold predict_body, bind. now rewrite E2.
Qed.

Lemma predict_body_unloaded (self : CreditMLService) (features : list float) (w : World) :
  Spec.valid features = true -> model self = None ->
  predict_body self features w = (inl (RuntimeError "Model not loaded"), w).
Proof.
  intros H E. unfold predict_body, bind.
  rewrite (validate_features_valid features w H), E. reflexivity.
Qed.

(** A run of the body that returns is a successful run. *)
Lemma predict_body_returns (self : CreditMLService) (features : list float)
    (w w' : World) (r : pydict) :
  predict_body self features w = (inr r, w') -> success_run self features w r w'.
Proof.
  unfold predict_body, bind. rewrite validate_features_run.
  destruct (Spec.first_violation features) as [line|] eqn:V; [discriminate|].
  apply first_violation_valid in V. cbn [negb].
  destruct (model self) as [m|] eqn:Em; [|discriminate].
  unfold lift at 1. destruct (predict m features) as [e|prediction] eqn:Ep;
    [discriminate|]. cbn [ret].
  destruct (probability_step m features w) as [[e|[probabilities confidence]] w2] eqn:E2;
    [discriminate|].
  destruct (importance_step m w2) as [[e|fi] w3] eqn:E3; [discriminate|].
  destruct (convert_category_to_score prediction confidence w3) as [[e|score] w4] eqn:E4;
    [discriminate|].
  unfold lift. destruct (credit_categories_item prediction) as [e|label] eqn:E5;
    [discriminate|]. cbn [ret].
  intros E. injection E as <- <-.
  exists m, prediction, label, score, confidence, probabilities, fi, w2, w3.
  repeat split; assumption || reflexivity.
Qed.

(** [predict_credit_score] always returns: a success that went through
    every step, or the failure dictionary of the exception caught. *)
Lemma predict_credit_score_run (self : CreditMLService) (features : list float)
    (w : World) :
  exists r w',
    predict_credit_score self features w = (inr r, w') /\
    (success_run self features w r w' \/
     exists e, predict_body self features w = (inl e, w') /\ r = failure_result e).
Proof.
  unfold predict_credit_score, try_except.
  destruct (predict_body self features w) as [[e|r] w'] eqn:E.
  - exists (failure_result e), w'. split; [reflexivity|]. right. now exists e.
  - exists r, w'. split; [reflexivity|]. left. now apply predict_body_returns.
Qed.

Lemma success_run_success self features w r w' :
  success_run self features w r w' ->
  dict_get (KStr "success") r = Some (VBool true).
Proof.
  intros (m & p & l & s & c & pr & fi & w2 & w3 & _ & _ & _ & _ & _ & _ & _ & ->).
  reflexivity.
Qed.

Lemma failure_result_success (e : exn) :
  dict_get (KStr "success") (failure_result e) = Some (VBool false).
Proof. reflexivity. Qed.

(** The two optional steps never raise and draw nothing: they only
    print. *)
Lemma probability_step_prints (m : Model) (features : list float) :
  exists pc lines, forall w,
    probability_step m features w = (inr pc, printed lines w).
Proof.
  unfold probability_step.
  destruct (predict_proba m) as [proba_of|].
  - destruct (proba_of features) as [e|proba].
    + eexists _, [_]. reflexivity.
    + destruct (label_probabilities proba) as [e|d].
      * eexists _, [_]. reflexivity.
      * destruct (PyFloat.py_max proba) as [e|c].
        -- eexists _, [_]. reflexivity.
        -- eexists _, []. intros w. now rewrite printed_nil.
  - eexists _, []. intros w. now rewrite printed_nil.
Qed.

Lemma importance_step_prints (m : Model) :
  exists fi lines, forall w, importance_step m w = (inr fi, printed lines w).
Proof.
  unfold importance_step.
  destruct (feature_importances_ m) as [importance|].
  - destruct (name_importances importance) as [e|d].
    + eexists _, [_]. reflexivity.
    + eexists _, []. intros w. now rewrite printed_nil.
  - eexists _, []. intros w. now rewrite printed_nil.
Qed.

End Pipeline.

(** ** Dependence on the random generator only *)

Module Rng.

Import Runs Pipeline.
#[local] Open Scope py_scope.

Lemma same_rng_refl (w : World) : same_rng w w.
Proof. now split. Qed.

Lemma same_rng_sym (w1 w2 : World) : same_rng w1 w2 -> same_rng w2 w1.
Proof. intros [? ?]. now split. Qed.

Lemma same_rng_trans (w1 w2 w3 : World) :
  same_rng w1 w2 -> same_rng w2 w3 -> same_rng w1 w3.
Proof. intros [? ?] [? ?]. split; congruence. Qed.

Lemma same_rng_printed (lines : list (list piece)) (w1 w2 : World) :
  same_rng w1 w2 -> same_rng (printed lines w1) w2.
Proof. intros [? ?]. now split. Qed.

Lemma rng_only_ret {A : Type} (a : A) : rng_only (ret a).
Proof. intros w1 w2 H. now split. Qed.

Lemma rng_only_raise {A : Type} (e : exn) : rng_only (@raise A e).
Proof. intros w1 w2 H. now split. Qed.

Lemma rng_only_lift {A : Type} (r : exn + A) : rng_only (lift r).
Proof. destruct r; [apply rng_only_raise | apply rng_only_ret]. Qed.

Lemma rng_only_print (line : list piece) : rng_only (print line).
Proof. intros w1 w2 [? ?]. now repeat split. Qed.

Lemma rng_only_bind {A B : Type} (c : M A) (k : A -> M B) :
  rng_only c -> (forall a, rng_only (k a)) -> rng_only (bind c k).
Proof.
  intros Hc Hk w1 w2 H. unfold bind.
  destruct (Hc w1 w2 H) as [E S].
  destruct (c w1) as [[e1|a1] w1'], (c w2) as [[e2|a2] w2']; cbn [fst snd] in *;
    try discriminate.
  - injection E as <-. now split.
  - injection E as <-. now apply Hk.
Qed.

Lemma rng_only_try_except {A : Type} (c : M A) (h : exn -> M A) :
  rng_only c -> (forall e, rng_only (h e)) -> rng_only (try_except c h).
Proof.
  intros Hc Hh w1 w2 H. unfold try_except.
  destruct (Hc w1 w2 H) as [E S].
  destruct (c w1) as [[e1|a1] w1'], (c w2) as [[e2|a2] w2']; cbn [fst snd] in *;
    try discriminate.
  - injection E as <-. now apply Hh.
  - now split.
Qed.

Lemma rng_only_prints {A : Type} (c : M A) (a : A) (lines : list (list piece)) :
  (forall w, c w = (inr a, printed lines w)) -> rng_only c.
Proof.
  intros Hc w1 w2 H. rewrite !Hc. cbn [fst snd]. split; [reflexivity|].
  apply same_rng_printed, same_rng_sym, same_rng_printed, same_rng_sym, H.
Qed.

Lemma rng_only_randint (low high : Z) : rng_only (randint low high).
Proof.
  unfold randint.
  destruct (low <? int64_min); [apply rng_only_raise|].
  destruct (high - 1 >? int64_max); [apply rng_only_raise|].
  destruct (low >? high - 1); [apply rng_only_raise|].
  intros w1 w2 [Ht Hc]. cbn [fst snd]. rewrite Ht, Hc. now repeat split.
Qed.

Lemma rng_only_validate (features : list float) : rng_only (validate_features features).
Proof.
  intros w1 w2 H. rewrite !validate_features_run.
  destruct (Spec.first_violation features); cbn [fst snd]; split; try reflexivity;
    [|assumption].
  apply same_rng_printed, same_rng_sym, same_rng_printed, same_rng_sym, H.
Qed.

Lemma rng_only_convert (category : Z) (confidence : float) :
  rng_only (convert_category_to_score category confidence).
Proof.
  unfold convert_category_to_score.
  apply rng_only_bind; [apply rng_only_lift|]. intros v.
  apply rng_only_bind; [apply rng_only_randint|]. intros a. apply rng_only_ret.
Qed.

Lemma rng_only_predict_body (self : CreditMLService) (features : list float) :
  rng_only (predict_body self features).
Proof.
  unfold predict_body.
  apply rng_only_bind; [apply rng_only_validate|]. intros [|]; cbn [negb];
    [|apply rng_only_raise].
  destruct (model self) as [m|]; [|apply rng_only_raise].
  apply rng_only_bind; [apply rng_only_lift|]. intros prediction.
  apply rng_only_bind.
  { destruct (probability_step_prints m features) as (pc & lines & H).
    now apply rng_only_prints with pc lines. }
  intros [probabilities confidence].
  apply rng_only_bind.
  { destruct (importance_step_prints m) as (fi & lines & H).
    now apply rng_only_prints with fi lines. }
  intros fi.
  apply rng_only_bind; [apply rng_only_convert|]. intros score.
  apply rng_only_bind; [apply rng_only_lift|]. intros label. apply rng_only_ret.
Qed.

Lemma rng_only_predict (self : CreditMLService) (features : list float) :
  rng_only (predict_credit_score self features).
Proof.
  apply rng_only_try_except; [apply rng_only_predict_body|].
  intros e. apply rng_only_ret.
Qed.

(** A prediction on invalid features draws nothing. *)
Lemma predict_invalid (self : CreditMLService) (features : list float) (w : World) :
  Spec.valid features = false ->
  exists w',
    predict_credit_score self features w =
      (inr (failure_result (ValueError "Invalid features provided")), w') /\
    same_rng w' w.
Proof.
  intros H. destruct (predict_body_invalid self features w H) as (line & _ & E).
  exists (printed [line] w). unfold predict_credit_score, try_except. rewrite E.
  split; [reflexivity|]. apply same_rng_printed, same_rng_refl.
Qed.

End Rng.

(** ** Batches *)

Module Batch.

Import Runs Pipeline Rng.
#[local] Open Scope py_scope.

Lemma batch_predict_from_run (self : CreditMLService) (features_list : list (list float)) :
  forall (acc : list pydict) (w : World),
  exists results w',
    batch_predict_from self acc features_list w = (inr (acc ++ results), w') /\
    batch_run self w features_list results w'.
Proof.
  induction features_list as [|features rest IH]; intros acc w.
  - exists [], w. cbn. rewrite app_nil_r. split; [reflexivity | constructor].
  - destruct (predict_credit_score_run self features w) as (r & w1 & E & _).
    destruct (IH (acc ++ [r]) w1) as (rs & w2 & E2 & R2).
    exists (r :: rs), w2. split.
    + cbn [batch_predict_from]. unfold bind. rewrite E, E2.
      now rewrite <- app_assoc.
    + now apply batch_run_cons with w1.
Qed.

Lemma batch_run_det (self : CreditMLService) (w : World) (l : list (list float))
    (rs1 : list pydict) (w1 : World) :
  batch_run self w l rs1 w1 ->
  forall rs2 w2, batch_run self w l rs2 w2 -> rs1 = rs2 /\ w1 = w2.
Proof.
  induction 1 as [w|w wa wb f rest r rs E R IH]; intros rs2 w2 H2; inversion H2; subst.
  - now split.
  - match goal with
    | H : predict_credit_score self f w = _ |- _ => rewrite E in H; injection H as <- <-
    end.
    match goal with
    | H : batch_run self wa rest _ _ |- _ => destruct (IH _ _ H) as [<- <-]
    end.
    now split.
Qed.

Lemma batch_run_length (self : CreditMLService) (w w' : World)
    (l : list (list float)) (rs : list pydict) :
  batch_run self w l rs w' -> List.length rs = List.length l.
Proof. induction 1; cbn; congruence. Qed.

Lemma batch_run_app (self : CreditMLService) (l1 l2 : list (list float)) :
  forall w rs w',
    batch_run self w (l1 ++ l2) rs w' ->
    exists rs1 rs2 wm,
      batch_run self w l1 rs1 wm /\ batch_run self wm l2 rs2 w' /\ rs = rs1 ++ rs2.
Proof.
  induction l1 as [|f l1 IH]; intros w rs w' H.
  - exists [], rs, w. repeat split; [constructor | assumption].
  - cbn in H. inversion H; subst.
    match goal with
    | H : batch_run self _ (l1 ++ l2) _ _ |- _ =>
        destruct (IH _ _ _ H) as (rs1 & rs2 & wm & R1 & R2 & ->)
    end.
    exists (result :: rs1), rs2, wm. repeat split; [|assumption].
    now apply batch_run_cons with w1.
Qed.

Lemma batch_run_join (self : CreditMLService) (l1 l2 : list (list float))
    (w wm w' : World) (rs1 rs2 : list pydict) :
  batch_run self w l1 rs1 wm -> batch_run self wm l2 rs2 w' ->
  batch_run self w (l1 ++ l2) (rs1 ++ rs2) w'.
Proof.
  induction 1; intros H2; cbn; [assumption|].
  apply batch_run_cons with w1; auto.
Qed.

(** Worlds that agree on the random generator yield the same results. *)
Lemma batch_run_same_rng (self : CreditMLService) (w1 w1' : World)
    (l : list (list float)) (rs : list pydict) :
  batch_run self w1 l rs w1' ->
  forall w2, same_rng w1 w2 ->
  exists w2', batch_run self w2 l rs w2' /\ same_rng w1' w2'.
Proof.
  induction 1 as [w|w wa wb f rest r rs E R IH]; intros w2 S.
  - exists w2. split; [constructor | assumption].
  - destruct (rng_only_predict self f w w2 S) as [E1 S1].
    rewrite E in E1. cbn [fst snd] in *.
    destruct (predict_credit_score self f w2) as [res wa2] eqn:E2. cbn [fst snd] in *.
    subst res. rewrite E in S1. cbn [snd] in S1.
    destruct (IH wa2 S1) as (w2' & R2 & S2).
    exists w2'. split; [|assumption]. now apply batch_run_cons with wa2.
Qed.

Lemma batch_predict_run (self : CreditMLService) (features_list : list (list float))
    (w : World) :
  exists results w',
    batch_predict self features_list w = (inr results, w') /\
    batch_run self w features_list results w'.
Proof. apply (batch_predict_from_run self features_list [] w). Qed.

(** The world in which item [i] is predicted. *)
Lemma batch_run_nth (self : CreditMLService) (w w' : World)
    (l : list (list float)) (rs : list pydict) :
  batch_run self w l rs w' ->
  forall i features, nth_error l i = Some features ->
  exists r wi,
    nth_error rs i = Some r /\
    predict_credit_score self features (world_before self l i w) = (inr r, wi).
Proof.
  induction 1 as [w|w wa wb f rest r rs E R IH]; intros i features Hi.
  - destruct i; discriminate.
  - destruct i as [|i].
    + injection Hi as <-. exists r, wa. split; [reflexivity|exact E].
    + cbn in Hi. destruct (IH i features Hi) as (r' & wi & N & P).
      exists r', wi. split; [exact N|].
      replace (world_before self (f :: rest) (S i) w) with (world_before self rest i wa);
        [exact P|].
      unfold world_before, batch_predict. cbn [firstn batch_predict_from].
      unfold bind. rewrite E.
      destruct (batch_predict_from_run self (firstn i rest) [] wa) as (x1 & y1 & -> & R1).
      destruct (batch_predict_from_run self (firstn i rest) ([] ++ [r]) wa)
        as (x2 & y2 & -> & R2).
      cbn [snd]. now destruct (batch_run_det _ _ _ _ _ R1 _ _ R2).
Qed.

End Batch.

(** ** Membership in [[0, 1, 2]] *)

Module Membership.

Import FloatOrder.
#[local] Open Scope float_scope.

Lemma SFeqb_finite (s1 s2 : bool) (m1 m2 : positive) (e1 e2 : Z) :
  SFeqb (S754_finite s1 m1 e1) (S754_finite s2 m2 e2) = true <->
  s1 = s2 /\ m1 = m2 /\ e1 = e2.
Proof.
  unfold SFeqb. cbn [SFcompare]. split.
  - destruct s1, s2; try discriminate; cmp_cases; try discriminate;
      intros _; repeat split; assumption.
  - intros (-> & -> & ->).
    destruct s2; rewrite Z.compare_refl, Pos.compare_cont_refl; reflexivity.
Qed.

(** [x == c] for a finite non-zero constant [c] holds of [c] alone. *)
Lemma eqb_finite (x c : float) (s : bool) (m : positive) (e : Z) :
  Prim2SF c = S754_finite s m e -> ((x =? c) = true <-> x = c).
Proof.
  intros Hc. rewrite eqb_spec, Hc. split.
  - destruct (Prim2SF x) as [sx|sx| |sx mx ex] eqn:Hx;
      try (destruct sx; destruct s; discriminate); try discriminate.
    intros H. apply SFeqb_finite in H. destruct H as (-> & -> & ->).
    apply Prim2SF_inj. congruence.
  - intros ->. rewrite Hc. now apply SFeqb_finite.
Qed.

(** [x == 0] holds of the two zeros. *)
Lemma eqb_zero (x : float) : (x =? 0) = true <-> x = 0 \/ x = (-0).
Proof.
  rewrite eqb_spec, RoundingFacts.Prim2SF_0. split.
  - destruct (Prim2SF x) as [sx|sx| |sx mx ex] eqn:Hx;
      try (destruct sx; discriminate); try discriminate.
    intros _. rewrite <- (SF2Prim_Prim2SF x), Hx. destruct sx; [now right | now left].
  - intros [-> | ->]; reflexivity.
Qed.

Lemma in_0_1_2_spec (x : float) :
  PyFloat.in_0_1_2 x = true <-> x = 0 \/ x = (-0) \/ x = 1 \/ x = 2.
Proof.
  unfold PyFloat.in_0_1_2. rewrite !orb_true_iff, eqb_zero.
  rewrite (eqb_finite x 1 false Rounding.m_one (-52) eq_refl).
  rewrite (eqb_finite x 2 false Rounding.m_one (-51) eq_refl).
  tauto.
Qed.

End Membership.

(* ================================================================= *)
(** * The claims *)

(** ** Feature validation *)

Module Validation.

Import Runs.
#[local] Open Scope float_scope.

Lemma not_negative_spec (x : float) :
  Spec.not_negative x = true <-> (0 <=? x) = true \/ PyFloat.is_nan x = true.
Proof. unfold Spec.not_negative, Spec.nonneg. apply orb_true_iff. Qed.

Lemma valid_seven (debt mix age mb pb income delayed : float) :
  Spec.valid [debt; mix; age; mb; pb; income; delayed] = true <->
  Spec.not_negative debt = true /\ PyFloat.in_0_1_2 mix = true /\
  Spec.not_negative age = true /\ Spec.not_negative income = true /\
  Spec.not_negative delayed = true.
Proof. cbn [Spec.valid]. rewrite !andb_true_iff. tauto. Qed.

Lemma valid_length (features : list float) :
  Spec.valid features = true -> List.length features = 7%nat.
Proof.
  destruct features as [|debt [|mix [|age [|mb [|pb [|income [|delayed [|x rest]]]]]]]];
    (discriminate || reflexivity).
Qed.

(** C3, as the code has it.  [validate_features] never raises.  It
    returns [True] exactly on the lists of seven floats whose
    Outstanding_Debt, Credit_History_Age, Annual_Income and
    Num_of_Delayed_Payment are not negative (at least zero, or NaN, which
    no comparison with zero rejects) and whose Credit_Mix equals 0, 1
    or 2; Monthly_Balance and Payment_Behaviour are never looked at.
    When it returns [False] it has printed the diagnostic of the first
    violated rule, in the order arity, debt, mix, age, income, delayed
    payments, and nothing else. *)
Theorem validate_features_spec (features : list float) (w : World) :
  validate_features features w =
    match Spec.first_violation features with
    | None => (inr true, w)
    | Some line => (inr false, printed [line] w)
    end /\
  (Spec.first_violation features = None <->
   exists debt mix age mb pb income delayed,
     features = [debt; mix; age; mb; pb; income; delayed] /\
     ((0 <=? debt) = true \/ PyFloat.is_nan debt = true) /\
     (mix = 0 \/ mix = (-0) \/ mix = 1 \/ mix = 2) /\
     ((0 <=? age) = true \/ PyFloat.is_nan age = true) /\
     ((0 <=? income) = true \/ PyFloat.is_nan income = true) /\
     ((0 <=? delayed) = true \/ PyFloat.is_nan delayed = true)) /\
  (forall debt mix age mb pb income delayed mb' pb',
     features = [debt; mix; age; mb; pb; income; delayed] ->
     validate_features [debt; mix; age; mb'; pb'; income; delayed] w =
     validate_features features w).
Proof.
  split; [apply validate_features_run|]. split.
  - rewrite first_violation_valid. split.
    + intros H. pose proof (valid_length _ H) as L.
      destruct features as [|debt [|mix [|age [|mb [|pb [|income [|delayed [|x rest]]]]]]]];
        try discriminate.
      exists debt, mix, age, mb, pb, income, delayed. split; [reflexivity|].
      apply valid_seven in H.
      rewrite !not_negative_spec, Membership.in_0_1_2_spec in H. exact H.
    + intros (debt & mix & age & mb & pb & income & delayed & -> & H).
      apply valid_seven. rewrite !not_negative_spec, Membership.in_0_1_2_spec. exact H.
  - intros debt mix age mb pb income delayed mb' pb' ->.
    rewrite !validate_features_run. reflexivity.
Qed.

Lemma validate_features_spec_witness :
  validate_features Sample.negative_income Sample.world =
    (inr false, printed [[Lit "Annual income cannot be negative"]] Sample.world) /\
  validate_features Sample.all_wrong Sample.world =
    (inr false, printed [[Lit "Outstanding debt cannot be negative"]] Sample.world) /\
  validate_features [5000; 1; 36; nan; -7; 60000; 2] Sample.world =
    validate_features Sample.features Sample.world.
Proof.
  split; [|split].
  - exact (proj1 (validate_features_spec Sample.negative_income Sample.world)).
  - exact (proj1 (validate_features_spec Sample.all_wrong Sample.world)).
  - apply (proj2 (proj2 (validate_features_spec Sample.features Sample.world))
             5000 1 36 2500 85 60000 2 nan (-7)).
    reflexivity.
Defined.

(** C3, as the claim words it, fails: a debt that is NaN is not "at
    least zero", and the list is accepted all the same. *)
Lemma validate_features_accepts_nan :
  fst (validate_features Sample.nan_debt Sample.world) = inr true /\
  Spec.valid_as_claimed Sample.nan_debt = false /\
  (0 <=? nth 0 Sample.nan_debt 0) = false.
Proof. repeat split; vm_compute; reflexivity. Qed.

End Validation.

(** ** Score conversion *)

Module Score.

Import Runs.
#[local] Open Scope float_scope.

(** On the unit interval the variance lies between 0 and 50, the
    truncation is the floor, and the conversion returns. *)
Lemma convert_unit (category : Z) (confidence : float) (w : World) :
  (0 <=? confidence) = true -> (confidence <=? 1) = true ->
  exists v,
    variance_of confidence = inr v /\ (0 <= v <= 50)%Z /\
    PyFloat.floor_of_float ((1 - confidence) * 50) = inr v /\
    convert_category_to_score category confidence w =
      (inr (clamp_score
              (base_score category + (- v + tape w (cursor w) mod (2 * v + 1)))%Z),
       drawn w).
Proof.
  intros H0 H1.
  destruct (RoundingFacts.variance_of_unit confidence H0 H1) as (v & E & Hv & F).
  exists v. repeat split; try assumption; try lia.
  apply convert_returns; [assumption|]. unfold int64_max. lia.
Qed.

Lemma base_score_other (category : Z) :
  category <> 0%Z -> category <> 1%Z -> category <> 2%Z -> base_score category = 650%Z.
Proof.
  intros H0 H1 H2. unfold base_score, base_scores. cbn [int_dict_get].
  destruct (Z.eqb_spec category 0); [contradiction|].
  destruct (Z.eqb_spec category 1); [contradiction|].
  destruct (Z.eqb_spec category 2); [contradiction|]. reflexivity.
Qed.

(** A raw draw that makes [randint] return [- v + k]. *)
Lemma draw_reaches (v a : Z) :
  (- v <= a <= v)%Z -> (- v + (a + v) mod (2 * v + 1))%Z = a.
Proof. intros H. rewrite Z.mod_small by lia. lia. Qed.

(** C1.  For every category and every confidence of the unit interval,
    [convert_category_to_score] returns an integer between 300 and
    850; and whenever [predict_credit_score] returns a success, its
    [credit_score_estimate] is an integer between 300 and 850. *)
Theorem score_in_range (category : Z) (confidence : float) (w : World)
    (self : CreditMLService) (features : list float) :
  ((0 <=? confidence) = true -> (confidence <=? 1) = true ->
   exists s w',
     convert_category_to_score category confidence w = (inr s, w') /\
     (300 <= s <= 850)%Z) /\
  (forall r,
     fst (predict_credit_score self features w) = inr r ->
     dict_get (KStr "success") r = Some (VBool true) ->
     exists s,
       dict_get (KStr "credit_score_estimate") r = Some (VInt s) /\
       (300 <= s <= 850)%Z).
Proof.
  split.
  - intros H0 H1.
    destruct (convert_unit category confidence w H0 H1) as (v & _ & _ & _ & E).
    eexists _, _. split; [exact E | apply clamp_score_range].
  - intros r E S.
    destruct (Pipeline.predict_credit_score_run self features w)
      as (r' & w' & E' & [Run | (e & _ & ->)]);
      rewrite E' in E; injection E as <-.
    + destruct Run as (m & p & l & s & c & pr & fi & w2 & w3 &
                       _ & _ & _ & _ & _ & Hs & _ & ->).
      exists s. split; [reflexivity|]. exact (convert_in_range _ _ _ _ _ Hs).
    + discriminate.
Qed.

Lemma score_in_range_witness :
  (exists s w',
     convert_category_to_score 0 0.85 Sample.world = (inr s, w') /\
     (300 <= s <= 850)%Z) /\
  (exists r s,
     fst (predict_credit_score (Sample.service Sample.forest) Sample.features
            Sample.world) = inr r /\
     dict_get (KStr "credit_score_estimate") r = Some (VInt s) /\
     (300 <= s <= 850)%Z).
Proof.
  destruct (score_in_range 0 0.85 Sample.world (Sample.service Sample.forest)
              Sample.features) as [H1 H2].
  split; [apply H1; reflexivity|].
  destruct (H2 _ eq_refl eq_refl) as [s Hs].
  eexists _, s. split; [reflexivity | exact Hs].
Defined.

(** C5, as the code has it.  The base is 750, 580 and 650 for the
    categories 0, 1 and 2, and 650 for any other category.  The variance
    is [int((1 - confidence) * 50)], the product truncated toward zero;
    on the unit interval, where the product is not negative, this is
    its floor.  When the variance [v] is not negative (and fits the
    64-bit integers), the score returned is the clamped sum of the base
    and an adjustment of the interval from [-v] to [v], and every
    adjustment of that interval is returned for some draw; and a score
    is never returned otherwise. *)
Theorem score_conversion (category : Z) (confidence : float) (w : World) :
  (base_score 0 = 750 /\ base_score 1 = 580 /\ base_score 2 = 650 /\
   (category <> 0 -> category <> 1 -> category <> 2 -> base_score category = 650))%Z /\
  variance_of confidence = PyFloat.int_of_float ((1 - confidence) * 50) /\
  ((0 <=? confidence) = true -> (confidence <=? 1) = true ->
   variance_of confidence = PyFloat.floor_of_float ((1 - confidence) * 50)) /\
  (forall v, variance_of confidence = inr v -> (0 <= v <= int64_max)%Z ->
     (exists a, (- v <= a <= v)%Z /\
        convert_category_to_score category confidence w =
          (inr (clamp_score (base_score category + a)), drawn w)) /\
     (forall a, (- v <= a <= v)%Z ->
        exists t,
          fst (convert_category_to_score category confidence (with_tape t w)) =
          inr (clamp_score (base_score category + a)))) /\
  (forall s w', convert_category_to_score category confidence w = (inr s, w') ->
     exists v a,
       variance_of confidence = inr v /\ (- v <= a <= v)%Z /\
       s = clamp_score (base_score category + a)).
Proof.
  split; [repeat split; apply base_score_other|].
  split; [reflexivity|]. split; [|split].
  - intros H0 H1.
    destruct (RoundingFacts.variance_of_unit confidence H0 H1) as (v & E & _ & F).
    congruence.
  - intros v E Hv. split.
    + exists (- v + tape w (cursor w) mod (2 * v + 1))%Z. split.
      * pose proof (Z.mod_pos_bound (tape w (cursor w)) (2 * v + 1)). lia.
      * now apply convert_returns.
    + intros a Ha. exists (fun _ => (a + v)%Z).
      rewrite (convert_returns category confidence v _ E Hv). cbn [fst with_tape tape].
      now rewrite draw_reaches.
  - intros s w' R. destruct (variance_of confidence) as [e|v] eqn:E.
    + destruct (convert_raises category confidence w) as [e' R'];
        [left; now exists e | congruence].
    + destruct (Z_lt_dec v 0) as [N|N];
        [|destruct (Z_lt_dec int64_max v) as [N'|N']];
        try (destruct (convert_raises category confidence w) as [e' R'];
             [right; exists v; split; [assumption | lia] | congruence]).
      rewrite (convert_returns category confidence v w E) in R by lia.
      injection R as <- _.
      exists v, (- v + tape w (cursor w) mod (2 * v + 1))%Z.
      split; [reflexivity|]. split; [|reflexivity].
      pose proof (Z.mod_pos_bound (tape w (cursor w)) (2 * v + 1)). lia.
Qed.

Lemma score_conversion_witness :
  (exists a, (- 7 <= a <= 7)%Z /\
     convert_category_to_score 1 0.85 Sample.world =
       (inr (clamp_score (base_score 1 + a)), drawn Sample.world)) /\
  (exists t,
     fst (convert_category_to_score 1 0.85 (with_tape t Sample.world)) =
     inr (clamp_score (base_score 1 + (-7)))).
Proof.
  destruct (score_conversion 1 0.85 Sample.world) as (_ & _ & _ & H & _).
  destruct (H 7%Z eq_refl ltac:(unfold int64_max; lia)) as [H1 H2].
  split; [exact H1 | apply H2; lia].
Defined.

(** C5, as the claim words it, fails above the unit interval: at a
    confidence of 1.01 the product is about -0.5, whose floor is -1 and
    whose truncation is 0; the floor would leave no adjustment to draw,
    and the code returns the base score. *)
Lemma variance_is_not_the_floor :
  variance_of 1.01 = inr 0%Z /\
  PyFloat.floor_of_float ((1 - 1.01) * 50) = inr (-1)%Z /\
  fst (convert_category_to_score 0 1.01 Sample.world) = inr 750%Z.
Proof. repeat split; vm_compute; reflexivity. Qed.

(** C10, as the code has it.  On the unit interval the variance lies
    between 0 and 50 and the conversion returns.  In general the
    conversion returns exactly when the variance is defined (the
    confidence is neither NaN nor infinite), is not negative and fits
    the 64-bit integers; a negative variance makes the draw raise
    [ValueError].  The precondition is on the variance: a confidence
    above 1 raises only once the truncated product is -1 or less. *)
Theorem convert_total (category : Z) (confidence : float) (w : World) :
  ((0 <=? confidence) = true -> (confidence <=? 1) = true ->
   exists v s,
     variance_of confidence = inr v /\ (0 <= v <= 50)%Z /\
     convert_category_to_score category confidence w = (inr s, drawn w)) /\
  ((exists s w', convert_category_to_score category confidence w = (inr s, w')) <->
   (exists v, variance_of confidence = inr v /\ (0 <= v <= int64_max)%Z)) /\
  (forall v, variance_of confidence = inr v -> (v < 0)%Z ->
     exists msg,
       convert_category_to_score category confidence w = (inl (ValueError msg), w)).
Proof.
  split; [|split].
  - intros H0 H1.
    destruct (convert_unit category confidence w H0 H1) as (v & E & Hv & _ & R).
    eexists v, _. repeat split; try lia; eassumption.
  - split.
    + intros (s & w' & R).
      destruct (variance_of confidence) as [e|v] eqn:E.
      * destruct (convert_raises category confidence w) as [e' R'];
          [left; now exists e | congruence].
      * exists v. split; [reflexivity|].
        destruct (Z_lt_dec v 0) as [N|N];
          [|destruct (Z_lt_dec int64_max v) as [N'|N']; [|lia]];
          (destruct (convert_raises category confidence w) as [e' R'];
           [right; exists v; split; [assumption | lia] | congruence]).
    + intros (v & E & Hv). rewrite (convert_returns category confidence v w E Hv).
      now eexists _, _.
  - intros v E Hv. unfold convert_category_to_score, bind, lift. rewrite E. cbn [ret].
    destruct (randint_refused v w (or_introl Hv)) as [msg ->]. now exists msg.
Qed.

Lemma convert_total_witness :
  (exists v s,
     variance_of 0.5 = inr v /\ (0 <= v <= 50)%Z /\
     convert_category_to_score 2 0.5 Sample.world = (inr s, drawn Sample.world)) /\
  (exists msg,
     convert_category_to_score 2 1.5 Sample.world = (inl (ValueError msg), Sample.world)).
Proof.
  split.
  - apply (proj1 (convert_total 2 0.5 Sample.world)); reflexivity.
  - apply (proj2 (proj2 (convert_total 2 1.5 Sample.world)) (-25)%Z); [reflexivity | lia].
Defined.

(** C10, as the claim words it, fails: 1.01 is a confidence above 1,
    its variance is 0, not negative, and the conversion returns. *)
Lemma confidence_above_one_returns :
  (1 <? 1.01) = true /\
  variance_of 1.01 = inr 0%Z /\
  fst (convert_category_to_score 0 1.01 Sample.world) = inr 750%Z.
Proof. repeat split; vm_compute; reflexivity. Qed.


End Score.

(** ** Prediction *)

Module Prediction.

Import Runs Pipeline.
#[local] Open Scope float_scope.

Lemma validate_verdict (features : list float) (w : World) :
  fst (validate_features features w) = inr (Spec.valid features).
Proof.
  destruct (Spec.valid features) eqn:V.
  - now rewrite validate_features_valid.
  - destruct (validate_features_invalid features w V) as (line & _ & ->). reflexivity.
Qed.

Lemma credit_categories_item_other (k : Z) :
  k <> 0%Z -> k <> 1%Z -> k <> 2%Z -> credit_categories_item k = inl (KeyError k).
Proof.
  intros H0 H1 H2. unfold credit_categories_item, credit_categories.
  cbn [int_dict_get].
  destruct (Z.eqb_spec k 0); [contradiction|].
  destruct (Z.eqb_spec k 1); [contradiction|].
  destruct (Z.eqb_spec k 2); [contradiction|]. reflexivity.
Qed.

(** C2.  [predict_credit_score] never raises: it returns a dictionary,
    which is a success or the failure object built from the exception
    its body raised.  When validation fails, or the model is [None], the
    result is the failure object of "Invalid features provided" or of
    "Model not loaded".  A failure object has [success] false, the
    string of the exception under [error], and [None] under
    [prediction_category], [prediction_label], [credit_score_estimate]
    and [confidence]. *)
Theorem predict_never_raises (self : CreditMLService) (features : list float)
    (w : World) :
  exists r w',
    predict_credit_score self features w = (inr r, w') /\
    (dict_get (KStr "success") r = Some (VBool true) \/
     exists e, predict_body self features w = (inl e, w') /\ r = failure_result e) /\
    (fst (validate_features features w) = inr false ->
     r = failure_result (ValueError "Invalid features provided")) /\
    (fst (validate_features features w) = inr true -> model self = None ->
     r = failure_result (RuntimeError "Model not loaded")) /\
    (forall e, r = failure_result e ->
       dict_get (KStr "success") r = Some (VBool false) /\
       dict_get (KStr "error") r = Some (VStr (str_exn e)) /\
       dict_get (KStr "prediction_category") r = Some VNone /\
       dict_get (KStr "prediction_label") r = Some VNone /\
       dict_get (KStr "credit_score_estimate") r = Some VNone /\
       dict_get (KStr "confidence") r = Some VNone).
Proof.
  destruct (predict_credit_score_run self features w) as (r & w' & E & H).
  exists r, w'. split; [exact E|]. split; [|split; [|split]].
  - destruct H as [Run | Fail]; [left | right; exact Fail].
    now apply success_run_success with self features w w'.
  - rewrite validate_verdict. intros V. injection V as V.
    destruct (predict_body_invalid self features w V) as (line & _ & B).
    unfold predict_credit_score, try_except in E. rewrite B in E.
    now injection E as <- _.
  - rewrite validate_verdict. intros V N. injection V as V.
    pose proof (predict_body_unloaded self features w V N) as B.
    unfold predict_credit_score, try_except in E. rewrite B in E.
    now injection E as <- _.
  - intros e ->. repeat split.
Qed.

Lemma predict_never_raises_witness :
  fst (predict_credit_score Sample.unloaded Sample.five_features Sample.world) =
    inr (failure_result (ValueError "Invalid features provided")) /\
  fst (predict_credit_score Sample.unloaded Sample.features Sample.world) =
    inr (failure_result (RuntimeError "Model not loaded")).
Proof.
  split.
  - destruct (predict_never_raises Sample.unloaded Sample.five_features Sample.world)
      as (r & w' & E & _ & H & _).
    rewrite E. cbn [fst]. f_equal. apply H. reflexivity.
  - destruct (predict_never_raises Sample.unloaded Sample.features Sample.world)
      as (r & w' & E & _ & _ & H & _).
    rewrite E. cbn [fst]. f_equal. apply H; reflexivity.
Defined.

(** C4.  In a successful prediction: when the model has no
    [predict_proba], the confidence is exactly 0.85 and [probabilities]
    is [None]; when [predict_proba] returns one probability per class
    (at least one class, at most the three of the category map),
    [probabilities] maps the labels Good, Poor and Standard, in that
    order, to these probabilities, and the confidence is their [max],
    which on probabilities without NaN is one of them and at least each
    of them. *)
Theorem confidence_and_probabilities (self : CreditMLService) (m : Model)
    (features : list float) (w : World) (r : pydict) :
  fst (predict_credit_score self features w) = inr r ->
  dict_get (KStr "success") r = Some (VBool true) ->
  model self = Some m ->
  (predict_proba m = None ->
   dict_get (KStr "confidence") r = Some (VFloat 0.85) /\
   dict_get (KStr "probabilities") r = Some VNone) /\
  (forall proba_of proba,
     predict_proba m = Some proba_of -> proba_of features = inr proba ->
     (1 <= List.length proba <= List.length credit_categories)%nat ->
     dict_get (KStr "probabilities") r =
       Some (VDict (map (fun lp => (KStr (fst lp), VFloat (snd lp)))
                      (combine (map snd credit_categories) proba))) /\
     exists c,
       dict_get (KStr "confidence") r = Some (VFloat c) /\
       PyFloat.py_max proba = inr c /\
       ((forall p, In p proba -> PyFloat.is_nan p = false) ->
        In c proba /\ forall p, In p proba -> (p <=? c) = true)).
Proof.
  intros E Ok Hm.
  destruct (predict_credit_score_run self features w)
    as (r' & w' & E' & [Run | (e & _ & ->)]);
    rewrite E' in E; injection E as <-; [|discriminate].
  destruct Run as (m' & p & l & s & c & pr & fi & w2 & w3 &
                   _ & Hm' & _ & Hp & _ & _ & _ & ->).
  rewrite Hm in Hm'. injection Hm' as <-.
  unfold probability_step in Hp. split.
  - intros N. rewrite N in Hp. injection Hp as <- <- _. split; reflexivity.
  - intros proba_of proba N Ep L. rewrite N, Ep in Hp.
    destruct proba as [|p0 [|p1 [|p2 [|p3 rest]]]]; simpl in L; try lia;
      unfold label_probabilities in Hp;
      cbn [label_probabilities_from credit_categories_item credit_categories
           int_dict_get Z.eqb Z.add Pos.eqb Pos.add Pos.succ PyFloat.py_max] in Hp;
      injection Hp as <- <- _; (split; [reflexivity|]);
      eexists; (split; [reflexivity|]); (split; [reflexivity|]);
      intros Hnan; now apply FloatFacts.py_max_greatest.
Qed.

Lemma confidence_and_probabilities_witness :
  (exists r,
     fst (predict_credit_score (Sample.service Sample.forest) Sample.features
            Sample.world) = inr r /\
     dict_get (KStr "probabilities") r =
       Some (VDict [(KStr "Good", VFloat 0.7); (KStr "Poor", VFloat 0.1);
                    (KStr "Standard", VFloat 0.2)]) /\
     dict_get (KStr "confidence") r = Some (VFloat 0.7)) /\
  (exists r,
     fst (predict_credit_score (Sample.service Sample.plain) Sample.features
            Sample.world) = inr r /\
     dict_get (KStr "confidence") r = Some (VFloat 0.85) /\
     dict_get (KStr "probabilities") r = Some VNone).
Proof.
  split.
  - destruct (confidence_and_probabilities (Sample.service Sample.forest) Sample.forest
                Sample.features Sample.world _ eq_refl eq_refl eq_refl) as [_ H].
    destruct (H _ [0.7; 0.1; 0.2] eq_refl eq_refl ltac:(cbn; lia)) as (P & c & C & Mx & _).
    eexists. split; [reflexivity|]. split; [exact P|].
    rewrite C. injection Mx as <-. reflexivity.
  - destruct (confidence_and_probabilities (Sample.service Sample.plain) Sample.plain
                Sample.features Sample.world _ eq_refl eq_refl eq_refl) as [H _].
    eexists. split; [reflexivity|]. exact (H eq_refl).
Defined.

(** C9.  When the classifier answers a class that is not 0, 1 or 2 on
    valid features, [predict_credit_score] returns a failure object.
    The score conversion takes such a class (its base is 650); if the
    conversion returns, the exception caught is the [KeyError] of the
    label lookup. *)
Theorem unknown_class_fails (self : CreditMLService) (m : Model)
    (features : list float) (w : World) (prediction : Z) :
  model self = Some m ->
  fst (validate_features features w) = inr true ->
  predict m features = inr prediction ->
  prediction <> 0%Z -> prediction <> 1%Z -> prediction <> 2%Z ->
  exists e w',
    predict_credit_score self features w = (inr (failure_result e), w') /\
    dict_get (KStr "success") (failure_result e) = Some (VBool false) /\
    base_score prediction = 650%Z /\
    credit_categories_item prediction = inl (KeyError prediction) /\
    (e = KeyError prediction \/
     exists confidence w3,
       convert_category_to_score prediction confidence w3 = (inl e, w')).
Proof.
  intros Hm V Ep H0 H1 H2.
  rewrite validate_verdict in V. injection V as V.
  pose proof (credit_categories_item_other prediction H0 H1 H2) as K.
  unfold predict_credit_score, try_except, predict_body, bind.
  rewrite (validate_features_valid features w V), Hm. cbn [negb].
  unfold lift at 1. rewrite Ep. cbn [ret].
  destruct (probability_step m features w) as [[e|[probabilities confidence]] w2] eqn:E2.
  { destruct (probability_step_prints m features) as (pc & lines & P).
    rewrite P in E2. discriminate. }
  destruct (importance_step m w2) as [[e|fi] w3] eqn:E3.
  { destruct (importance_step_prints m) as (fi & lines & P).
    rewrite P in E3. discriminate. }
  destruct (convert_category_to_score prediction confidence w3) as [[e|score] w4] eqn:E4.
  - exists e, w4. repeat split; try assumption.
    + now apply Score.base_score_other.
    + right. now exists confidence, w3.
  - rewrite K. cbn [lift raise]. exists (KeyError prediction), w4.
    repeat split; try assumption.
    + now apply Score.base_score_other.
    + now left.
Qed.

Lemma unknown_class_fails_witness :
  exists w',
    predict_credit_score (Sample.service Sample.four_classes) Sample.features
      Sample.world = (inr (failure_result (KeyError 3)), w').
Proof.
  destruct (unknown_class_fails (Sample.service Sample.four_classes)
              Sample.four_classes Sample.features Sample.world 3
              eq_refl eq_refl eq_refl ltac:(lia) ltac:(lia) ltac:(lia))
    as (e & w' & E & _ & _ & _ & _).
  exists w'. rewrite E.
  assert (X : fst (predict_credit_score (Sample.service Sample.four_classes)
                     Sample.features Sample.world) = inr (failure_result (KeyError 3)))
    by (vm_compute; reflexivity).
  rewrite E in X. cbn [fst] in X. now rewrite X.
Defined.

End Prediction.

(** ** Batch prediction *)

Module BatchClaims.

Import Runs Pipeline Rng Batch.

(** C6.  [batch_predict] never raises and returns one result per
    input, in input order: the result at position [i] is the result of
    [predict_credit_score] on input [i], run in the world the earlier
    items left.  An invalid item yields the failure object of "Invalid
    features provided" at its position, and the results at the other
    positions are those of the batch without that item. *)
Theorem batch_predict_spec (self : CreditMLService)
    (features_list : list (list float)) (w : World) :
  exists results w',
    batch_predict self features_list w = (inr results, w') /\
    batch_run self w features_list results w' /\
    List.length results = List.length features_list /\
    (forall i features,
       nth_error features_list i = Some features ->
       exists r wi,
         nth_error results i = Some r /\
         predict_credit_score self features (world_before self features_list i w)
           = (inr r, wi)) /\
    (forall before bad after,
       features_list = before ++ bad :: after ->
       fst (validate_features bad w) = inr false ->
       exists rs1 rs2,
         List.length rs1 = List.length before /\
         results =
           rs1 ++ failure_result (ValueError "Invalid features provided") :: rs2 /\
         fst (batch_predict self (before ++ after) w) = inr (rs1 ++ rs2)).
Proof.
  destruct (batch_predict_run self features_list w) as (results & w' & E & R).
  exists results, w'. split; [exact E|]. split; [exact R|].
  split; [now apply batch_run_length with self w w'|].
  split; [now apply batch_run_nth with w'|].
  intros before bad after -> V.
  rewrite Prediction.validate_verdict in V. injection V as V.
  destruct (batch_run_app self before (bad :: after) w results w' R)
    as (rs1 & rs' & wm & R1 & R2 & ->).
  inversion R2 as [|? wb ? ? ? rbad rs2 Eb Rafter]; subst.
  destruct (predict_invalid self bad wm V) as (wb' & Eb' & S).
  rewrite Eb' in Eb. injection Eb as <- <-.
  destruct (batch_run_same_rng self wb' w' after rs2 Rafter wm S) as (w'' & Rafter' & _).
  exists rs1, rs2. split; [now apply batch_run_length with self w wm|].
  split; [reflexivity|].
  pose proof (batch_run_join self before after w wm w'' rs1 rs2 R1 Rafter') as Rj.
  destruct (batch_predict_run self (before ++ after) w) as (rs & wj & -> & Rj').
  cbn [fst]. f_equal. now destruct (batch_run_det _ _ _ _ _ Rj' _ _ Rj).
Qed.

Lemma batch_predict_spec_witness :
  exists rs1 rs2,
    List.length rs1 = 1%nat /\
    fst (batch_predict (Sample.service Sample.plain)
           [Sample.features; Sample.five_features; Sample.features] Sample.world) =
      inr (rs1 ++ failure_result (ValueError "Invalid features provided") :: rs2) /\
    fst (batch_predict (Sample.service Sample.plain)
           [Sample.features; Sample.features] Sample.world) = inr (rs1 ++ rs2).
Proof.
  destruct (batch_predict_spec (Sample.service Sample.plain)
              [Sample.features; Sample.five_features; Sample.features] Sample.world)
    as (results & w' & E & _ & _ & _ & H).
  destruct (H [Sample.features] Sample.five_features [Sample.features]
              eq_refl eq_refl) as (rs1 & rs2 & L & -> & B).
  exists rs1, rs2. rewrite E. repeat split; assumption.
Defined.

End BatchClaims.

(** ** Loading *)

Module Loading.

#[local] Open Scope py_scope.

Lemma load_model_run (self : CreditMLService) (w : World) :
  match files w (model_path self) with
  | None =>
      exists w',
        load_model self w =
          (inl (FileNotFoundError ("Model file not found: " ++ model_path self)%string),
           w')
  | Some (inl e) => exists w', load_model self w = (inl e, w')
  | Some (inr loaded) =>
      exists w',
        load_model self w =
          (inr {| model_path := model_path self; model := loaded |}, w')
  end.
Proof.
  unfold load_model, try_except, load_model_body, bind, path_exists, joblib_load, print.
  destruct (files w (model_path self)) as [[e|[m|]]|] eqn:F; cbn; rewrite ?F; cbn.
  - eexists. reflexivity.
  - destruct (n_estimators m), (feature_importances_ m); cbn; eexists; reflexivity.
  - eexists. reflexivity.
  - eexists. reflexivity.
Qed.

(** C7, as the code has it.  Constructing the service on a path where
    nothing lies raises [FileNotFoundError].  When a file lies there and
    [joblib.load] raises, that very exception leaves the constructor:
    the handler prints it and raises it again, wrapping nothing.  In
    both cases no service object results; one results exactly when the
    load returned, and it holds the loaded object. *)
Theorem load_model_failures (path : string) (w : World) :
  (files w path = None ->
   exists w',
     init path w =
       (inl (FileNotFoundError ("Model file not found: " ++ path)%string), w')) /\
  (forall e, files w path = Some (inl e) -> exists w', init path w = (inl e, w')) /\
  (forall self w',
     init path w = (inr self, w') <->
     exists loaded,
       files w path = Some (inr loaded) /\
       self = {| model_path := path; model := loaded |} /\
       w' = snd (init path w)).
Proof.
  pose proof (load_model_run {| model_path := path; model := None |} w) as R.
  cbn [model_path] in R. unfold init. split; [|split].
  - intros E. now rewrite E in R.
  - intros e E. now rewrite E in R.
  - intros self w'. split.
    + intros I. destruct (files w path) as [[e|loaded]|]; destruct R as [w1 R];
        rewrite R in I; try discriminate.
      injection I as <- <-. exists loaded. rewrite R. now repeat split.
    + intros (loaded & E & -> & ->). rewrite E in R. destruct R as [w1 ->]. reflexivity.
Qed.

Lemma load_model_failures_witness :
  (exists w',
     init "models/absent.joblib" Sample.world =
       (inl (FileNotFoundError "Model file not found: models/absent.joblib"), w')) /\
  (exists w',
     init "models/corrupt.joblib" Sample.world = (inl Sample.unpickling_error, w')).
Proof.
  split.
  - apply (proj1 (load_model_failures "models/absent.joblib" Sample.world)). reflexivity.
  - apply (proj1 (proj2 (load_model_failures "models/corrupt.joblib" Sample.world))).
    reflexivity.
Defined.

(** C7, as the claim words it, fails twice.  A corrupt file makes the
    constructor raise the loader's own [UnpicklingError], not an error
    that wraps it; and a file that exists, but whose load misses a part,
    makes it raise [FileNotFoundError] although the path resolves. *)
Lemma load_error_is_not_wrapped :
  fst (init "models/corrupt.joblib" Sample.world) = inl Sample.unpickling_error /\
  exn_class Sample.unpickling_error = "UnpicklingError" /\
  fst (path_exists "models/split.joblib" Sample.world) = inr true /\
  fst (init "models/split.joblib" Sample.world) = inl Sample.missing_part /\
  exn_class Sample.missing_part = "FileNotFoundError".
Proof. repeat split; vm_compute; reflexivity. Qed.

End Loading.

(** ** Introspection *)

Module Introspection.

(** C8.  Without a model, [get_model_info] returns exactly the
    dictionary with [error] set to "Model not loaded".  With a model it
    returns the type name, the feature names, the category map and
    [model_loaded] true, and under each of [n_estimators], [max_depth]
    and [random_state] what the model exposes there: the key is present
    exactly when the model has the attribute, whatever the other two
    are; no other key is present. *)
Theorem get_model_info_spec (self : CreditMLService) :
  (model self = None ->
   get_model_info self = [ (KStr "error", VStr "Model not loaded") ]) /\
  (forall m, model self = Some m ->
     let info := get_model_info self in
     dict_get (KStr "model_type") info = Some (VStr (type_name m)) /\
     dict_get (KStr "feature_names") info = Some (VList (map VStr feature_names)) /\
     dict_get (KStr "credit_categories") info =
       Some (VDict [ (KInt 0, VStr "Good"); (KInt 1, VStr "Poor");
                     (KInt 2, VStr "Standard") ]) /\
     dict_get (KStr "model_loaded") info = Some (VBool true) /\
     dict_get (KStr "n_estimators") info = n_estimators m /\
     dict_get (KStr "max_depth") info = max_depth m /\
     dict_get (KStr "random_state") info = random_state m /\
     (forall k, In k (map fst info) -> exists s, k = KStr s /\ In s info_keys)).
Proof.
  split.
  - intros E. unfold get_model_info. now rewrite E.
  - intros m E info. subst info. unfold get_model_info. rewrite E.
    unfold add_if_exposed.
    destruct (n_estimators m), (max_depth m), (random_state m); cbn;
      repeat split; try reflexivity;
      intros k H; repeat (destruct H as [<- | H]; [eexists; split; [reflexivity | cbn; tauto]|]);
      destruct H.
Qed.

Lemma get_model_info_spec_witness :
  get_model_info Sample.unloaded = [ (KStr "error", VStr "Model not loaded") ] /\
  dict_get (KStr "max_depth") (get_model_info (Sample.service Sample.forest)) =
    Some VNone /\
  dict_get (KStr "max_depth") (get_model_info (Sample.service Sample.plain)) = None.
Proof.
  split; [|split].
  - apply (proj1 (get_model_info_spec Sample.unloaded)). reflexivity.
  - apply (proj2 (get_model_info_spec (Sample.service Sample.forest)) Sample.forest).
    reflexivity.
  - apply (proj2 (get_model_info_spec (Sample.service Sample.plain)) Sample.plain).
    reflexivity.
Defined.

End Introspection.

(* ================================================================= *)
(** * Further properties of the code *)

(** ** What a run leaves behind *)

Module Footprints.

Import Runs Pipeline.


Lemma footprint_printed (lines : list (list piece)) (w : World) :
  footprint 0 w (printed lines w).
Proof. repeat split; [apply eq_sym, Nat.add_0_r|]. now exists lines. Qed.





End Footprints.

(** ** More on [predict_credit_score] *)

Module PredictionExtras.

Import Runs Pipeline Footprints.
#[local] Open Scope float_scope.

(** A successful result, as a run went through its steps. *)
Lemma success_inversion (self : CreditMLService) (features : list float)
    (w : World) (r : pydict) :
  fst (predict_credit_score self features w) = inr r ->
  dict_get (KStr "success") r = Some (VBool true) ->
  success_run self features w r (snd (predict_credit_score self features w)).
Proof.
  intros E Ok.
  destruct (predict_credit_score_run self features w)
    as (r' & w' & E' & [Run | (e & _ & ->)]);
    rewrite E' in E |- *; injection E as <-; [exact Run | discriminate].
Qed.

(** X1.  A successful result echoes its input: [features_used] holds the
    seven feature names, in schema order, each with the value given at
    that position. *)
Theorem features_echoed (self : CreditMLService) (features : list float)
    (w : World) (r : pydict) :
  fst (predict_credit_score self features w) = inr r ->
  dict_get (KStr "success") r = Some (VBool true) ->
  exists d,
    dict_get (KStr "features_used") r = Some (VDict d) /\
    map fst d = map KStr feature_names /\
    map snd d = map VFloat features /\
    (forall i name x,
       nth_error feature_names i = Some name -> nth_error features i = Some x ->
       dict_get (KStr name) d = Some (VFloat x)).
Proof.
  intros E Ok.
  destruct (success_inversion self features w r E Ok)
    as (m & p & l & s & c & pr & fi & w2 & w3 & V & _ & _ & _ & _ & _ & _ & ->).
  exists (features_used features). split; [reflexivity|].
  pose proof (Validation.valid_length _ V) as L.
  destruct features as [|f0 [|f1 [|f2 [|f3 [|f4 [|f5 [|f6 [|f7 rest]]]]]]]];
    try discriminate.
  repeat split.
  intros i name x Hn Hx.
  do 7 (destruct i as [|i];
        [cbn in Hn, Hx; injection Hn as <-; injection Hx as <-; reflexivity|]).
  destruct i; discriminate.
Qed.

Lemma features_echoed_witness :
  exists r d,
    fst (predict_credit_score (Sample.service Sample.plain) Sample.features
           Sample.world) = inr r /\
    dict_get (KStr "features_used") r = Some (VDict d) /\
    dict_get (KStr "Annual_Income") d = Some (VFloat 60000).
Proof.
  destruct (features_echoed (Sample.service Sample.plain) Sample.features
              Sample.world _ eq_refl eq_refl) as (d & D & _ & _ & H).
  eexists _, d. split; [reflexivity|]. split; [exact D|].
  exact (H 5%nat "Annual_Income" 60000 eq_refl eq_refl).
Defined.

(** X2.  A success is consistent with the category map: the category is
    0, 1 or 2, it is the class the classifier answered, and the label is
    Good, Poor or Standard accordingly; the features were valid and
    [model_type] is the type name of the model. *)
Theorem category_and_label (self : CreditMLService) (features : list float)
    (w : World) (r : pydict) :
  fst (predict_credit_score self features w) = inr r ->
  dict_get (KStr "success") r = Some (VBool true) ->
  exists m k label,
    model self = Some m /\ predict m features = inr k /\
    fst (validate_features features w) = inr true /\
    dict_get (KStr "prediction_category") r = Some (VInt k) /\
    dict_get (KStr "prediction_label") r = Some (VStr label) /\
    dict_get (KStr "model_type") r = Some (VStr (type_name m)) /\
    ((k = 0%Z /\ label = "Good"%string) \/ (k = 1%Z /\ label = "Poor"%string) \/
     (k = 2%Z /\ label = "Standard"%string)).
Proof.
  intros E Ok.
  destruct (success_inversion self features w r E Ok)
    as (m & k & l & s & c & pr & fi & w2 & w3 & V & Hm & Hp & _ & _ & _ & K & ->).
  exists m, k, l. repeat split; try assumption.
  - now rewrite Prediction.validate_verdict, V.
  - unfold credit_categories_item, credit_categories in K. cbn [int_dict_get] in K.
    destruct (Z.eqb_spec k 0); [left; split; congruence|].
    destruct (Z.eqb_spec k 1); [right; left; split; congruence|].
    destruct (Z.eqb_spec k 2); [right; right; split; congruence | discriminate].
Qed.

Lemma category_and_label_witness :
  exists r,
    fst (predict_credit_score (Sample.service Sample.plain) Sample.features
           Sample.world) = inr r /\
    dict_get (KStr "prediction_category") r = Some (VInt 1) /\
    dict_get (KStr "prediction_label") r = Some (VStr "Poor").
Proof.
  destruct (category_and_label (Sample.service Sample.plain) Sample.features
              Sample.world _ eq_refl eq_refl)
    as (m & k & label & Hm & Hp & _ & C & L & _ & D).
  injection Hm as <-. injection Hp as <-.
  assert (label = "Poor"%string) as -> by (destruct D as [[? ?]|[[? ?]|[? ?]]]; congruence).
  eexists. split; [reflexivity|]. split; [exact C | exact L].
Defined.

(** X3.  There is no partial result: a result has either the nine keys
    of a success, with [success] true, or the six keys of a failure,
    with [success] false and a string under [error]. *)
Theorem result_keys (self : CreditMLService) (features : list float) (w : World) :
  exists r,
    fst (predict_credit_score self features w) = inr r /\
    ((is_success r = true /\ map fst r = success_keys) \/
     (is_success r = false /\ map fst r = failure_keys /\
      exists msg, dict_get (KStr "error") r = Some (VStr msg))).
Proof.
  destruct (predict_credit_score_run self features w)
    as (r & w' & E & [Run | (e & _ & R)]); exists r; rewrite E;
    (split; [reflexivity|]).
  - left.
    destruct Run as (m & p & l & s & c & pr & fi & w2 & w3 &
                     _ & _ & _ & _ & _ & _ & _ & ->).
    split; reflexivity.
  - right. subst r. repeat split. now exists (str_exn e).
Qed.



End PredictionExtras.

(** ** The optional steps and the score band *)

Module OptionalSteps.

Import Runs Pipeline Footprints PredictionExtras.
#[local] Open Scope float_scope.

Lemma name_importances_short (importance : list float) :
  (List.length importance <= 7)%nat ->
  name_importances importance =
    inr (map (fun ni => (KStr (fst ni), VFloat (snd ni)))
           (combine feature_names importance)).
Proof.
  intros L.
  destruct importance as [|i0 [|i1 [|i2 [|i3 [|i4 [|i5 [|i6 [|i7 rest]]]]]]]];
    try reflexivity.
  cbn in L. lia.
Qed.

Lemma name_importances_long (importance : list float) :
  (7 < List.length importance)%nat ->
  name_importances importance = inl (IndexError "list index out of range").
Proof.
  intros L.
  destruct importance as [|i0 [|i1 [|i2 [|i3 [|i4 [|i5 [|i6 [|i7 rest]]]]]]]];
    cbn in L; try lia.
  reflexivity.
Qed.

Lemma label_probabilities_long (proba : list float) :
  (3 < List.length proba)%nat -> label_probabilities proba = inl (KeyError 3).
Proof.
  intros L. destruct proba as [|p0 [|p1 [|p2 [|p3 rest]]]]; cbn in L; try lia.
  reflexivity.
Qed.

(** X5.  Feature importances are best effort.  In a successful result
    [feature_importance] is [None] when the model has no
    [feature_importances_]; it pairs the feature names, in schema order,
    with the importances when there are at most seven of them; and when
    there are more, the [IndexError] is swallowed and it is [None]
    again, the prediction succeeding all the same. *)
Theorem feature_importance_best_effort (self : CreditMLService) (m : Model)
    (features : list float) (w : World) (r : pydict) :
  fst (predict_credit_score self features w) = inr r ->
  dict_get (KStr "success") r = Some (VBool true) ->
  model self = Some m ->
  (feature_importances_ m = None ->
   dict_get (KStr "feature_importance") r = Some VNone) /\
  (forall importance,
     feature_importances_ m = Some importance ->
     (List.length importance <= 7)%nat ->
     dict_get (KStr "feature_importance") r =
       Some (VDict (map (fun ni => (KStr (fst ni), VFloat (snd ni)))
                      (combine feature_names importance)))) /\
  (forall importance,
     feature_importances_ m = Some importance ->
     (7 < List.length importance)%nat ->
     dict_get (KStr "feature_importance") r = Some VNone).
Proof.
  intros E Ok Hm.
  destruct (success_inversion self features w r E Ok)
    as (m' & p & l & s & c & pr & fi & w2 & w3 & _ & Hm' & _ & _ & Hi & _ & _ & ->).
  rewrite Hm in Hm'. injection Hm' as <-.
  unfold importance_step in Hi. split; [|split].
  - intros N. rewrite N in Hi. injection Hi as <- _. reflexivity.
  - intros importance N L. rewrite N, (name_importances_short _ L) in Hi.
    injection Hi as <- _. reflexivity.
  - intros importance N L. rewrite N, (name_importances_long _ L) in Hi.
    injection Hi as <- _. reflexivity.
Qed.

Lemma feature_importance_best_effort_witness :
  exists r,
    fst (predict_credit_score (Sample.service Sample2.eight_importances)
           Sample.features Sample.world) = inr r /\
    dict_get (KStr "success") r = Some (VBool true) /\
    dict_get (KStr "feature_importance") r = Some VNone.
Proof.
  destruct (feature_importance_best_effort (Sample.service Sample2.eight_importances)
              Sample2.eight_importances Sample.features Sample.world _
              eq_refl eq_refl eq_refl) as (_ & _ & H).
  eexists. split; [reflexivity|]. split; [reflexivity|].
  apply (H _ eq_refl). cbn. lia.
Defined.

(** X6.  Probabilities are best effort too.  In a successful result of
    a model that has [predict_proba]: when the call raises, or returns
    more than three probabilities (the label lookup then raises
    [KeyError]), [probabilities] is [None] and the confidence is the
    default 0.85; when it returns no probability at all, [probabilities]
    is the empty dictionary, already assigned when [max] raises, and
    the confidence is the default again. *)
Theorem probabilities_best_effort (self : CreditMLService) (m : Model)
    (proba_of : list float -> exn + list float)
    (features : list float) (w : World) (r : pydict) :
  fst (predict_credit_score self features w) = inr r ->
  dict_get (KStr "success") r = Some (VBool true) ->
  model self = Some m ->
  predict_proba m = Some proba_of ->
  (forall e, proba_of features = inl e ->
     dict_get (KStr "probabilities") r = Some VNone /\
     dict_get (KStr "confidence") r = Some (VFloat 0.85)) /\
  (forall proba, proba_of features = inr proba -> (3 < List.length proba)%nat ->
     dict_get (KStr "probabilities") r = Some VNone /\
     dict_get (KStr "confidence") r = Some (VFloat 0.85)) /\
  (proba_of features = inr [] ->
   dict_get (KStr "probabilities") r = Some (VDict []) /\
   dict_get (KStr "confidence") r = Some (VFloat 0.85)).
Proof.
  intros E Ok Hm N.
  destruct (success_inversion self features w r E Ok)
    as (m' & p & l & s & c & pr & fi & w2 & w3 & _ & Hm' & _ & Hp & _ & _ & _ & ->).
  rewrite Hm in Hm'. injection Hm' as <-.
  unfold probability_step in Hp. rewrite N in Hp. split; [|split].
  - intros e Ep. rewrite Ep in Hp. injection Hp as <- <- _. split; reflexivity.
  - intros proba Ep L. rewrite Ep, (label_probabilities_long _ L) in Hp.
    injection Hp as <- <- _. split; reflexivity.
  - intros Ep. rewrite Ep in Hp. injection Hp as <- <- _. split; reflexivity.
Qed.

Lemma probabilities_best_effort_witness :
  exists r,
    fst (predict_credit_score (Sample.service Sample2.no_probabilities)
           Sample.features Sample.world) = inr r /\
    dict_get (KStr "probabilities") r = Some (VDict []) /\
    dict_get (KStr "confidence") r = Some (VFloat 0.85).
Proof.
  destruct (probabilities_best_effort (Sample.service Sample2.no_probabilities)
              Sample2.no_probabilities _ Sample.features Sample.world _
              eq_refl eq_refl eq_refl eq_refl) as (_ & _ & H).
  eexists. split; [reflexivity|]. exact (H eq_refl).
Defined.

Lemma base_score_values (category : Z) :
  base_score category = 750%Z \/ base_score category = 580%Z \/
  base_score category = 650%Z.
Proof.
  unfold base_score, base_scores. cbn [int_dict_get].
  destruct (category =? 0)%Z; [now left|].
  destruct (category =? 1)%Z; [now right; left|].
  destruct (category =? 2)%Z; now right; right.
Qed.

(** X7.  On the unit interval the clamp never acts: the score returned
    is the base plus an adjustment of at most the variance, itself at
    most 50, so it lies between 530 and 800; and a confidence of
    exactly 1 returns the base itself. *)
Theorem score_band (category : Z) (confidence : float) (w : World) :
  (0 <=? confidence) = true -> (confidence <=? 1) = true ->
  exists v a,
    variance_of confidence = inr v /\ (0 <= v <= 50)%Z /\ (- v <= a <= v)%Z /\
    convert_category_to_score category confidence w =
      (inr (base_score category + a)%Z, drawn w) /\
    (530 <= base_score category + a <= 800)%Z /\
    (confidence = 1 -> a = 0%Z).
Proof.
  intros H0 H1.
  destruct (Score.convert_unit category confidence w H0 H1) as (v & E & Hv & _ & R).
  pose proof (Z.mod_pos_bound (tape w (cursor w)) (2 * v + 1) ltac:(lia)) as B.
  pose proof (base_score_values category) as Hb.
  exists v, (- v + tape w (cursor w) mod (2 * v + 1))%Z.
  split; [exact E|]. split; [exact Hv|]. split; [lia|]. split; [|split].
  - rewrite R. unfold clamp_score. do 2 f_equal. lia.
  - lia.
  - intros ->. assert (V1 : variance_of 1 = inr 0%Z) by (vm_compute; reflexivity).
    rewrite V1 in E. injection E as <-. cbn. now rewrite Z.mod_1_r.
Qed.

Lemma score_band_witness :
  exists v a,
    variance_of 1 = inr v /\ (0 <= v <= 50)%Z /\ (- v <= a <= v)%Z /\
    convert_category_to_score 1 1 Sample.world =
      (inr (base_score 1 + a)%Z, drawn Sample.world) /\
    (530 <= base_score 1 + a <= 800)%Z /\ a = 0%Z.
Proof.
  destruct (score_band 1 1 Sample.world eq_refl eq_refl)
    as (v & a & E & Hv & Ha & R & B & One).
  exists v, a. repeat split; try assumption; try lia. now apply One.
Defined.

(** X8.  Without [predict_proba] the confidence is the default 0.85,
    whose variance is 7: the score of every successful prediction is
    within 7 of the base score of its category. *)
Theorem default_confidence_band (self : CreditMLService) (m : Model)
    (features : list float) (w : World) (r : pydict) :
  fst (predict_credit_score self features w) = inr r ->
  dict_get (KStr "success") r = Some (VBool true) ->
  model self = Some m -> predict_proba m = None ->
  exists k s,
    dict_get (KStr "prediction_category") r = Some (VInt k) /\
    dict_get (KStr "credit_score_estimate") r = Some (VInt s) /\
    (base_score k - 7 <= s <= base_score k + 7)%Z.
Proof.
  intros E Ok Hm N.
  destruct (success_inversion self features w r E Ok)
    as (m' & k & l & s & c & pr & fi & w2 & w3 & _ & Hm' & _ & Hp & _ & Hs & _ & ->).
  rewrite Hm in Hm'. injection Hm' as <-.
  unfold probability_step in Hp. rewrite N in Hp. injection Hp as _ <- _.
  exists k, s. split; [reflexivity|]. split; [reflexivity|].
  assert (V : variance_of default_confidence = inr 7%Z) by (vm_compute; reflexivity).
  rewrite (convert_returns k default_confidence 7 w3 V) in Hs
    by (unfold int64_max; lia).
  pose proof (Z.mod_pos_bound (tape w3 (cursor w3)) (2 * 7 + 1) ltac:(lia)) as B.
  remember (tape w3 (cursor w3) mod (2 * 7 + 1))%Z as t eqn:Et in *.
  assert (Es : s = clamp_score (base_score k + (- (7) + t))%Z) by congruence.
  pose proof (base_score_values k) as Hb. rewrite Es. unfold clamp_score. lia.
Qed.

Lemma default_confidence_band_witness :
  exists r s,
    fst (predict_credit_score (Sample.service Sample.plain) Sample.features
           Sample.world) = inr r /\
    dict_get (KStr "credit_score_estimate") r = Some (VInt s) /\
    (573 <= s <= 587)%Z.
Proof.
  destruct (default_confidence_band (Sample.service Sample.plain) Sample.plain
              Sample.features Sample.world _ eq_refl eq_refl eq_refl eq_refl)
    as (k & s & K & S & B).
  injection K as <-. eexists _, s. split; [reflexivity|]. split; [exact S|].
  change (base_score 1) with 580%Z in B. exact B.
Defined.

Lemma is_nan_nan (p : float) : PyFloat.is_nan p = true -> p = nan.
Proof.
  unfold PyFloat.is_nan. rewrite negb_true_iff, eqb_spec. intros H.
  apply FloatOrder.SFeqb_nan in H. apply Prim2SF_inj. now rewrite H.
Qed.

Lemma max_after_nan (rest : list float) :
  fold_left (fun cur item => if cur <? item then item else cur) rest nan = nan.
Proof.
  induction rest as [|x rest IH]; [reflexivity|]. cbn [fold_left].
  assert (L : (nan <? x) = false) by (rewrite ltb_spec; reflexivity).
  now rewrite L.
Qed.

(** X9.  [max] keeps a first item that is NaN, whatever follows it.
    When [predict_proba] returns at most three probabilities of which
    the first is NaN, the confidence is NaN, its conversion to an
    integer raises, and the prediction fails with that error, having
    drawn nothing. *)
Theorem nan_probability_fails (self : CreditMLService) (m : Model)
    (proba_of : list float -> exn + list float) (features : list float)
    (w : World) (k : Z) (p : float) (rest : list float) :
  model self = Some m ->
  fst (validate_features features w) = inr true ->
  predict m features = inr k ->
  predict_proba m = Some proba_of ->
  proba_of features = inr (p :: rest) ->
  PyFloat.is_nan p = true -> (List.length rest <= 2)%nat ->
  PyFloat.py_max (p :: rest) = inr nan /\
  exists w',
    predict_credit_score self features w =
      (inr (failure_result (ValueError "cannot convert float NaN to integer")), w') /\
    footprint 0 w w'.
Proof.
  intros Hm V Hp N Ep Hnan L.
  apply is_nan_nan in Hnan. subst p.
  split; [cbn [PyFloat.py_max]; now rewrite max_after_nan|].
  rewrite Prediction.validate_verdict in V. injection V as V.
  unfold predict_credit_score, try_except, predict_body, bind.
  rewrite (validate_features_valid features w V), Hm. cbn [negb].
  unfold lift at 1. rewrite Hp. cbn [ret].
  assert (P : exists d, probability_step m features w = (inr (Some d, nan), w)).
  { unfold probability_step. rewrite N, Ep. cbn [PyFloat.py_max].
    rewrite max_after_nan.
    destruct rest as [|p1 [|p2 [|p3 rest]]]; cbn in L; try lia;
      eexists; reflexivity. }
  destruct P as [d ->].
  destruct (importance_step_prints m) as (fi & lines & ->).
  assert (C : convert_category_to_score k nan (printed lines w) =
              (inl (ValueError "cannot convert float NaN to integer"),
               printed lines w)).
  { unfold convert_category_to_score, bind, lift.
    assert (Vn : variance_of nan =
                 inl (ValueError "cannot convert float NaN to integer"))
      by (vm_compute; reflexivity).
    now rewrite Vn. }
  rewrite C. eexists. split; [reflexivity | apply footprint_printed].
Qed.

Lemma nan_probability_fails_witness :
  exists w',
    predict_credit_score (Sample.service Sample2.nan_probabilities) Sample.features
      Sample.world =
      (inr (failure_result (ValueError "cannot convert float NaN to integer")), w').
Proof.
  destruct (nan_probability_fails (Sample.service Sample2.nan_probabilities)
              Sample2.nan_probabilities _ Sample.features Sample.world 0 nan
              [0.5; 0.5] eq_refl eq_refl eq_refl eq_refl eq_refl eq_refl
              ltac:(cbn; lia)) as (_ & w' & E & _).
  now exists w'.
Defined.

(** X10.  When the classifier itself raises on valid features, the
    result is the failure object of that very exception, with its
    string under [error], and the world is left exactly as it was:
    nothing is printed, nothing drawn. *)
Theorem classifier_exception_reported (self : CreditMLService) (m : Model)
    (features : list float) (w : World) (e : exn) :
  model self = Some m ->
  fst (validate_features features w) = inr true ->
  predict m features = inl e ->
  predict_credit_score self features w = (inr (failure_result e), w) /\
  dict_get (KStr "error") (failure_result e) = Some (VStr (str_exn e)).
Proof.
  intros Hm V Hp. rewrite Prediction.validate_verdict in V. injection V as V.
  split; [|reflexivity].
  unfold predict_credit_score, try_except, predict_body, bind.
  rewrite (validate_features_valid features w V), Hm. cbn [negb].
  unfold lift at 1. now rewrite Hp.
Qed.

Lemma classifier_exception_reported_witness :
  predict_credit_score (Sample.service Sample2.unfitted) Sample.features Sample.world =
    (inr (failure_result Sample2.not_fitted), Sample.world).
Proof.
  exact (proj1 (classifier_exception_reported (Sample.service Sample2.unfitted)
                  Sample2.unfitted Sample.features Sample.world Sample2.not_fitted
                  eq_refl eq_refl eq_refl)).
Defined.

End OptionalSteps.

(** ** More on batches, loading and introspection *)

Module ServiceExtras.

Import Runs Pipeline Footprints Batch.
#[local] Open Scope py_scope.

(** X11.  Batches compose: the empty batch returns no result and leaves
    the world alone, and the batch of two lists put end to end returns
    the results of the first followed by those of the second, run in
    the world the first left. *)
Theorem batch_predict_app (self : CreditMLService)
    (l1 l2 : list (list float)) (w : World) :
  batch_predict self [] w = (inr [], w) /\
  exists rs1 w1 rs2 w2,
    batch_predict self l1 w = (inr rs1, w1) /\
    batch_predict self l2 w1 = (inr rs2, w2) /\
    batch_predict self (l1 ++ l2) w = (inr (rs1 ++ rs2), w2).
Proof.
  split; [reflexivity|].
  destruct (batch_predict_run self l1 w) as (rs1 & w1 & E1 & R1).
  destruct (batch_predict_run self l2 w1) as (rs2 & w2 & E2 & R2).
  exists rs1, w1, rs2, w2. split; [exact E1|]. split; [exact E2|].
  destruct (batch_predict_run self (l1 ++ l2) w) as (rs & w' & -> & R).
  pose proof (batch_run_join self l1 l2 w w1 w2 rs1 rs2 R1 R2) as Rj.
  now destruct (batch_run_det _ _ _ _ _ R _ _ Rj) as [-> ->].
Qed.





(** X14.  Construction succeeds whenever the load returns, whatever it
    returns.  On a file that holds a model, the service holds it and
    [get_model_info] reports it loaded.  On a file that holds [None]
    the service is constructed all the same, unloaded:
    [get_model_info] answers the error descriptor and every prediction
    on valid features fails with "Model not loaded". *)
Theorem construction_outcome (path : string) (w : World) :
  (forall m, files w path = Some (inr (Some m)) ->
     exists self w',
       init path w = (inr self, w') /\
       model_path self = path /\ model self = Some m /\
       dict_get (KStr "model_loaded") (get_model_info self) = Some (VBool true) /\
       dict_get (KStr "model_type") (get_model_info self) =
         Some (VStr (type_name m))) /\
  (files w path = Some (inr None) ->
   exists self w',
     init path w = (inr self, w') /\
     get_model_info self = [ (KStr "error", VStr "Model not loaded") ] /\
     forall features w2,
       fst (validate_features features w2) = inr true ->
       predict_credit_score self features w2 =
         (inr (failure_result (RuntimeError "Model not loaded")), w2)).
Proof.
  pose proof (Loading.load_model_run {| model_path := path; model := None |} w) as R.
  cbn [model_path] in R. unfold init. split.
  - intros m F. rewrite F in R. destruct R as [w' ->].
    eexists _, w'. split; [reflexivity|]. cbn [model_path model].
    split; [reflexivity|]. split; [reflexivity|].
    unfold get_model_info, add_if_exposed. cbn [model].
    destruct (n_estimators m), (max_depth m), (random_state m); split; reflexivity.
  - intros F. rewrite F in R. destruct R as [w' ->].
    eexists _, w'. split; [reflexivity|]. split; [reflexivity|].
    intros features w2 V. rewrite Prediction.validate_verdict in V. injection V as V.
    unfold predict_credit_score, try_except.
    now rewrite (predict_body_unloaded {| model_path := path; model := None |}
                   features w2 V eq_refl).
Qed.

Lemma construction_outcome_witness :
  exists self w',
    init default_model_path Sample2.world_of_none = (inr self, w') /\
    get_model_info self = [ (KStr "error", VStr "Model not loaded") ] /\
    predict_credit_score self Sample.features Sample.world =
      (inr (failure_result (RuntimeError "Model not loaded")), Sample.world).
Proof.
  destruct (proj2 (construction_outcome default_model_path Sample2.world_of_none)
              eq_refl) as (self & w' & E & I & P).
  exists self, w'. split; [exact E|]. split; [exact I|].
  apply P. reflexivity.
Defined.

(** X15.  The descriptor of a loaded model has pairwise distinct keys:
    the four fixed ones first, in the order [model_type],
    [feature_names], [credit_categories], [model_loaded], then one key
    for each optional attribute the model exposes, and no more. *)
Theorem get_model_info_keys (self : CreditMLService) (m : Model) :
  model self = Some m ->
  NoDup (map fst (get_model_info self)) /\
  List.length (get_model_info self) = (4 + exposed_count m)%nat /\
  firstn 4 (map fst (get_model_info self)) =
    map KStr [ "model_type"; "feature_names"; "credit_categories"; "model_loaded" ].
Proof.
  intros E. unfold get_model_info, add_if_exposed, exposed_count. rewrite E.
  destruct (n_estimators m), (max_depth m), (random_state m); cbn;
    (split; [|split; reflexivity]);
    repeat (constructor; [cbn; intuition discriminate|]); constructor.
Qed.

Lemma get_model_info_keys_witness :
  List.length (get_model_info (Sample.service Sample2.eight_importances)) = 5%nat.
Proof.
  exact (proj1 (proj2 (get_model_info_keys (Sample.service Sample2.eight_importances)
                         Sample2.eight_importances eq_refl))).
Defined.

End ServiceExtras.

(** ** The command-line shell *)

Module ShellFacts.

Import Runs Pipeline Footprints.
#[local] Open Scope py_scope.

Lemma print_lines_run (lines : list (list piece)) :
  forall w, Shell.print_lines lines w = (inr tt, printed lines w).
Proof.
  induction lines as [|line rest IH]; intros w.
  - cbn. now rewrite printed_nil.
  - cbn [Shell.print_lines]. unfold bind, print. rewrite IH.
    unfold printed. cbn. now rewrite <- app_assoc.
Qed.




Section Main.

Variable lower : string -> string.
Variable float_of_string : string -> exn + float.
Variable json_dumps : pyval -> string.
Variable format_percent : pyval -> exn + string.

(** [float] on a string raises nothing but [ValueError]. *)
Hypothesis float_errors :
  forall s e, float_of_string s = inl e -> exn_class e = "ValueError"%string.

(** A float can be formatted as a percentage. *)
Hypothesis percent_of_float :
  forall c, exists s, format_percent (VFloat c) = inr s.

Lemma parse_features_errors (args : list string) (e : exn) :
  Shell.parse_features float_of_string args = inl e ->
  Shell.is_ValueError e = true.
Proof.
  induction args as [|x rest IH]; [discriminate|]. cbn [Shell.parse_features].
  destruct (float_of_string x) as [e0|f] eqn:F.
  - intros E. injection E as <-. unfold Shell.is_ValueError.
    now rewrite (float_errors x e0 F).
  - destruct (Shell.parse_features float_of_string rest) as [e1|fs];
      [|discriminate].
    intros E. injection E as <-. now apply IH.
Qed.





(** X17.  With no command at all, [main] prints the five lines of the
    usage and stops: it constructs no service, so nothing is loaded. *)
Theorem main_usage (argv : list string) (w : World) :
  (List.length argv < 2)%nat ->
  Shell.main lower float_of_string json_dumps format_percent argv w =
    (inr tt, printed Shell.usage w).
Proof.
  intros L. unfold Shell.main.
  destruct (Nat.ltb_spec (List.length argv) 2); [|lia].
  apply print_lines_run.
Qed.

(** X18.  When the service cannot be constructed, [main] reports the
    failure and stops there, whatever the command: after what the
    loader printed comes the one line "Failed to initialize ML service:
    <error>", and [main] returns normally. *)
Theorem main_init_failure (argv : list string) (w w1 : World) (e : exn) :
  (2 <= List.length argv)%nat ->
  init default_model_path w = (inl e, w1) ->
  Shell.main lower float_of_string json_dumps format_percent argv w =
    (inr tt,
     printed [[Lit "Failed to initialize ML service: "; Val (VStr (str_exn e))]] w1).
Proof.
  intros L I. unfold Shell.main.
  destruct (Nat.ltb_spec (List.length argv) 2); [lia|].
  unfold bind at 1. unfold try_except, bind at 1. rewrite I. reflexivity.
Qed.

(** X19.  The [predict] command.  With a service constructed and at
    least seven arguments after the command, the first seven are
    parsed (any further one is ignored): when they parse, [main] prints
    the JSON of the result of [predict_credit_score] on them and
    nothing else; when one does not, it prints "Error parsing features:
    <error>" and predicts nothing. *)
Theorem main_predict (argv : list string) (w w1 : World)
    (service : CreditMLService) :
  (9 <= List.length argv)%nat ->
  init default_model_path w = (inr service, w1) ->
  lower (nth 1 argv "") = "predict"%string ->
  (forall features,
     Shell.parse_features float_of_string (firstn 7 (skipn 2 argv)) = inr features ->
     exists r w2,
       predict_credit_score service features w1 = (inr r, w2) /\
       Shell.main lower float_of_string json_dumps format_percent argv w =
         (inr tt, printed [[Lit (json_dumps (VDict r))]] w2)) /\
  (forall e,
     Shell.parse_features float_of_string (firstn 7 (skipn 2 argv)) = inl e ->
     Shell.main lower float_of_string json_dumps format_percent argv w =
       (inr tt,
        printed [[Lit "Error parsing features: "; Val (VStr (str_exn e))]] w1)).
Proof.
  intros L I C.
  assert (M : Shell.main lower float_of_string json_dumps format_percent argv w =
              Shell.predict_command float_of_string json_dumps service argv w1).
  { unfold Shell.main. destruct (Nat.ltb_spec (List.length argv) 2); [lia|].
    unfold bind at 1. unfold try_except, bind at 1. rewrite I. cbn [ret].
    now rewrite C. }
  rewrite M. unfold Shell.predict_command.
  destruct (Nat.ltb_spec (List.length argv) 9); [lia|].
  unfold Shell.try_except_ValueError, bind, lift. split.
  - intros features P. rewrite P. cbn [ret].
    destruct (predict_credit_score_run service features w1) as (r & w2 & E & _).
    exists r, w2. split; [exact E|]. now rewrite E.
  - intros e P. rewrite P. cbn [raise]. now rewrite (parse_features_errors _ _ P).
Qed.

End Main.

Lemma sample_float_errors (s : string) (e : exn) :
  Sample2.float_of_string s = inl e -> exn_class e = "ValueError"%string.
Proof.
  unfold Sample2.float_of_string.
  repeat (match goal with |- context [if ?b then _ else _] => destruct b end;
          [discriminate|]).
  intros E. now injection E as <-.
Qed.



Lemma main_usage_witness :
  Shell.main Sample2.lower Sample2.float_of_string Sample2.json_dumps
    Sample2.format_percent ["python_ml_service.py"] Sample.world =
    (inr tt, printed Shell.usage Sample.world).
Proof.
  apply main_usage. cbn. lia.
Defined.

Lemma main_init_failure_witness :
  exists w1,
    Shell.main Sample2.lower Sample2.float_of_string Sample2.json_dumps
      Sample2.format_percent ["python_ml_service.py"; "info"] Sample2.empty_world =
      (inr tt,
       printed [[Lit "Failed to initialize ML service: ";
                 Val (VStr "Model file not found: models/credit_classifier.joblib")]]
         w1).
Proof.
  eexists.
  apply (main_init_failure Sample2.lower Sample2.float_of_string Sample2.json_dumps
           Sample2.format_percent ["python_ml_service.py"; "info"] Sample2.empty_world
           _ (FileNotFoundError "Model file not found: models/credit_classifier.joblib")).
  - cbn. lia.
  - reflexivity.
Defined.

Lemma main_predict_witness :
  Shell.main Sample2.lower Sample2.float_of_string Sample2.json_dumps
    Sample2.format_percent
    ["python_ml_service.py"; "predict"; "5000.0"; "1"; "36"; "abc"; "2"; "2"; "2"]
    Sample.world =
    (inr tt,
     printed [[Lit "Error parsing features: ";
               Val (VStr "could not convert string to float: 'abc'")]]
       (snd (init default_model_path Sample.world))).
Proof.
  apply (proj2 (main_predict Sample2.lower Sample2.float_of_string Sample2.json_dumps
                  Sample2.format_percent sample_float_errors
                  ["python_ml_service.py"; "predict"; "5000.0"; "1"; "36"; "abc";
                   "2"; "2"; "2"]
                  Sample.world (snd (init default_model_path Sample.world))
                  (Sample.service Sample.forest) ltac:(cbn; lia) eq_refl eq_refl)
          (ValueError "could not convert string to float: 'abc'")).
  reflexivity.
Defined.

End ShellFacts.
